(** * Iran earthquake viewer: the data acquisition and caching layer

    A shallow embedding of [lib/api.ts] ([fetchEarthquakes], [cacheData],
    [getCachedData]) and of the filter handlers of the map and sidebar
    components, with the properties of the specification stated over it.

    Conventions.
    - A JavaScript [number] is modelled by the rational it denotes.  Every
      finite double is a rational and the comparisons [<], [>=] of finite
      doubles are the comparisons of those rationals, so nothing is rounded
      in what follows.  [undefined] (which converts to NaN) and [null] (which
      converts to 0) are kept apart in [JsVal].
    - Epoch milliseconds and HTTP status codes are integers ([Z]).
    - [localStorage] is a finite map from keys to the stored items.
    - A thrown value is an [Error] with its [name] and [message]; [await] on
      a rejected promise is a throw.  The text of the engine's own
      [TypeError]s is the one V8 prints. *)

From Stdlib Require Import ZArith QArith Qreduction Lia.
From Stdlib Require Import Strings.String Strings.Ascii.
From Stdlib Require Import DecimalString DecimalN.
From Stdlib Require Import Sorting.Sorted.
From stdpp Require Import gmap strings list.

Open Scope string_scope.
Open Scope Z_scope.

(** ** JavaScript values and errors *)

(** What a numeric field of a parsed JSON object can hold: the key is absent
    ([undefined]), the value is [null], or it is a number. *)
Inductive JsVal : Type :=
| JUndefined
| JNull
| JNum (x : Q).

(** [ToNumber]: [undefined] gives NaN (here [None]), [null] gives [+0]. *)
Definition ToNumber (v : JsVal) : option Q :=
  match v with
  | JUndefined => None
  | JNull => Some 0%Q
  | JNum x => Some x
  end.

(** [v >= c] and [v <= c] for a number [c]; a comparison with NaN is false. *)
Definition js_ge (v : JsVal) (c : Q) : bool :=
  match ToNumber v with
  | Some x => Qle_bool c x
  | None => false
  end.

Definition js_le (v : JsVal) (c : Q) : bool :=
  match ToNumber v with
  | Some x => Qle_bool x c
  | None => false
  end.

Record JsError : Type := mkError { name : string; message : string }.

Definition Error (msg : string) : JsError := mkError "Error" msg.
Definition TypeError (msg : string) : JsError := mkError "TypeError" msg.

(** The outcome of evaluating a block: a value, or a thrown error. *)
Inductive Completion (A : Type) : Type :=
| Normal (a : A)
| Throw (e : JsError).
Arguments Normal {A} a.
Arguments Throw {A} e.

(** ** lib/types.ts *)

Record EarthquakeProperties : Type := mkProperties {
  mag : JsVal;
  place : string;
  time : Z;
}.

Record Geometry : Type := mkGeometry {
  (** [None]: the key is absent or [null] *)
  coordinates : option (list JsVal);
}.

Record Earthquake : Type := mkEarthquake {
  id : string;
  properties : option EarthquakeProperties;
  geometry : option Geometry;
}.

Record Metadata : Type := mkMetadata {
  generated : Z;
  url : string;
  title : string;
  status : Z;
  api : string;
  count : Z;
}.

(** The body of a response after [response.json()]: a JSON object whose
    [metadata] and [features] keys may be absent. *)
Record EarthquakeData : Type := mkData {
  metadata : option Metadata;
  features : option (list Earthquake);
}.

(** ** lib/api.ts: constants *)

(** Format: [min longitude, min latitude, max longitude, max latitude] *)
Definition IRAN_BOUNDS : list Q := [44; 25; 63; 40]%Q.

(** [IRAN_BOUNDS[i]] for the constant indices the source uses. *)
Definition IRAN_BOUNDS_at (i : nat) : Q := nth i IRAN_BOUNDS 0%Q.

(** ** lib/api.ts: the post-filter of the real-time feeds (lines 89-104) *)

Definition set_count (md : Metadata) (n : Z) : Metadata :=
  mkMetadata (generated md) (url md) (title md) (status md) (api md) n.

(** The callback given to [data.features.filter].  The destructuring
    [const [lon, lat] = feature.geometry.coordinates] throws when [geometry]
    or [coordinates] is missing, and binds [undefined] past the end of a
    short array; [feature.properties.mag] is only read when the four bound
    tests passed ([&&] short-circuits), and throws when [properties] is
    missing. *)
Definition filter_callback (minMagnitude : Q) (feature : Earthquake)
  : Completion bool :=
  match geometry feature with
  | None => Throw (TypeError "Cannot read properties of undefined (reading 'coordinates')")
  | Some g =>
    match coordinates g with
    | None => Throw (TypeError "feature.geometry.coordinates is not iterable")
    | Some cs =>
      let lon := nth 0 cs JUndefined in
      let lat := nth 1 cs JUndefined in
      if js_ge lon (IRAN_BOUNDS_at 0) && js_le lon (IRAN_BOUNDS_at 2) &&
         js_ge lat (IRAN_BOUNDS_at 1) && js_le lat (IRAN_BOUNDS_at 3)
      then
        match properties feature with
        | None => Throw (TypeError "Cannot read properties of undefined (reading 'mag')")
        | Some p => Normal (js_ge (mag p) minMagnitude)
        end
      else Normal false
    end
  end.

(** [Array.prototype.filter] with a callback that may throw: elements are
    visited in order and the first throw ends the whole call. *)
Fixpoint array_filter {A : Type} (cb : A -> Completion bool) (l : list A)
  : Completion (list A) :=
  match l with
  | [] => Normal []
  | x :: rest =>
    match cb x with
    | Throw e => Throw e
    | Normal keep =>
      match array_filter cb rest with
      | Throw e => Throw e
      | Normal kept => Normal (if keep then x :: kept else kept)
      end
    end
  end.

(** Lines 89-104: what happens to the parsed body before it is cached. *)
Definition normalize (timeRange : string) (minMagnitude : Q)
    (data : EarthquakeData) : Completion EarthquakeData :=
  if negb (String.eqb timeRange "custom") then
    match features data with
    | None => Throw (TypeError "Cannot read properties of undefined (reading 'filter')")
    | Some fs =>
      match array_filter (filter_callback minMagnitude) fs with
      | Throw e => Throw e
      | Normal kept =>
        match metadata data with
        | None => Throw (TypeError "Cannot set properties of undefined (setting 'count')")
        | Some md =>
          Normal (mkData (Some (set_count md (Z.of_nat (length kept)))) (Some kept))
        end
      end
    end
  else Normal data.

(** ** Rendering numbers and dates as text *)

Definition digit (d : Z) : ascii := ascii_of_N (48 + Z.to_N d).

(** The digits after the decimal point of [r / den], for [0 <= r < den]. *)
Fixpoint fraction_digits (fuel : nat) (r den : Z) : string :=
  match fuel with
  | O => ""
  | S fuel' =>
    if r =? 0 then ""
    else String (digit (10 * r / den)) (fraction_digits fuel' (10 * r mod den) den)
  end.

(** [Number.prototype.toString] as a template literal applies it, in the
    positional notation JavaScript uses between 1e-6 and 1e21: sign, integer
    part, and the decimal digits when there are any.  It is exact on the
    numbers whose shortest decimal form has at most 17 digits after the point,
    which covers every position of the magnitude slider (step 0.1), the four
    bounds and the HTTP status codes. *)
Definition Number_toString (x : Q) : string :=
  let q := Qred x in
  let n := Z.abs (Qnum q) in
  let d := Z.pos (Qden q) in
  (if Qnum q <? 0 then "-" else "") +:+
  NilZero.string_of_uint (N.to_uint (Z.to_N (n / d))) +:+
  (if n mod d =? 0 then "" else "." +:+ fraction_digits 17 (n mod d) d).

Record CalendarDate : Type := mkDate { year : Z; month : Z; day : Z }.

Definition pad2 (n : Z) : string :=
  String (digit (n / 10 mod 10)) (String (digit (n mod 10)) "").

Definition pad4 (n : Z) : string :=
  String (digit (n / 1000 mod 10)) (String (digit (n / 100 mod 10)) (pad2 n)).

(** The [YYYY-MM-DD] text of a date, as a date input and
    [toISOString().split("T")[0]] give it. *)
Definition formatDate (d : CalendarDate) : string :=
  pad4 (year d) +:+ "-" +:+ pad2 (month d) +:+ "-" +:+ pad2 (day d).

(** A date as the code holds it: the optional parameter left out
    ([undefined]), the empty string of a cleared date input, or the text of a
    calendar date. *)
Inductive DateField : Type :=
| DUndefined
| DEmpty
| DDate (d : CalendarDate).

(** [`${d}`] *)
Definition DateField_template (d : DateField) : string :=
  match d with
  | DUndefined => "undefined"
  | DEmpty => ""
  | DDate c => formatDate c
  end.

(** [d || ""] *)
Definition DateField_or_empty (d : DateField) : string :=
  match d with
  | DUndefined | DEmpty => ""
  | DDate c => formatDate c
  end.

(** [a > b] on two strings: code units compared left to right. *)
Definition string_gt (a b : string) : bool := String.ltb b a.

(** [a > b] where either side may be [undefined], which makes it false. *)
Definition DateField_gt (a b : DateField) : bool :=
  match a, b with
  | DUndefined, _ | _, DUndefined => false
  | _, _ => string_gt (DateField_template a) (DateField_template b)
  end.

(** ** The calendar behind [new Date(text)] and [toISOString] *)

Definition is_leap (y : Z) : bool :=
  (y mod 4 =? 0) && (negb (y mod 100 =? 0) || (y mod 400 =? 0)).

Definition days_in_month (y m : Z) : Z :=
  if m =? 2 then (if is_leap y then 29 else 28)
  else if (m =? 4) || (m =? 6) || (m =? 9) || (m =? 11) then 30
  else 31.

Definition valid_date (d : CalendarDate) : Prop :=
  0 <= year d <= 9999 /\ 1 <= month d <= 12 /\
  1 <= day d <= days_in_month (year d) (month d).

(** Days from 1 January of a common year to the first of month [m]. *)
Definition days_before_month (m : Z) : Z :=
  nth (Z.to_nat (m - 1)) [0; 31; 59; 90; 120; 151; 181; 212; 243; 273; 304; 334] 0.

(** Days from 1970-01-01 to 1 January of year [y]. *)
Definition days_before_year (y : Z) : Z :=
  365 * (y - 1970) + ((y - 1) / 4 - (y - 1) / 100 + (y - 1) / 400 - 477).

Definition days_from_epoch (d : CalendarDate) : Z :=
  days_before_year (year d) + days_before_month (month d) +
  (if is_leap (year d) && (2 <? month d) then 1 else 0) + (day d - 1).

Definition msPerDay : Z := 86400000.

(** [new Date("YYYY-MM-DD").getTime()]: a date-only text is UTC midnight. *)
Definition Date_getTime (d : CalendarDate) : Z := days_from_epoch d * msPerDay.

Definition next_day (d : CalendarDate) : CalendarDate :=
  if day d <? days_in_month (year d) (month d) then mkDate (year d) (month d) (day d + 1)
  else if month d <? 12 then mkDate (year d) (month d + 1) 1
  else mkDate (year d + 1) 1 1.

(** The UTC calendar date at epoch millisecond [now] (for a clock at or after
    1970): what [now.toISOString().split("T")[0]] prints. *)
Definition utc_date (now : Z) : CalendarDate :=
  Nat.iter (Z.to_nat (now / msPerDay)) next_day (mkDate 1970 1 1).

(** Month and day are those of a calendar date, whatever the year. *)
Definition month_day_ok (d : CalendarDate) : Prop :=
  1 <= month d <= 12 /\ 1 <= day d <= days_in_month (year d) (month d).

(** The day of the year, counted from 0. *)
Definition day_of_year (d : CalendarDate) : Z :=
  days_before_month (month d) +
  (if is_leap (year d) && (2 <? month d) then 1 else 0) + (day d - 1).

(** [a] is earlier in the calendar than [b]. *)
Definition before (a b : CalendarDate) : Prop :=
  year a < year b \/
  year a = year b /\ (month a < month b \/ month a = month b /\ day a < day b).

(** Year, then month, then day. *)
Definition compare_dates (a b : CalendarDate) : comparison :=
  match year a ?= year b with
  | Eq =>
    match month a ?= month b with
    | Eq => day a ?= day b
    | c => c
    end
  | c => c
  end.

(** ** lib/api.ts: the cache over [localStorage] *)

(** Cache durations in milliseconds *)
Definition CACHE_DURATIONS : list (string * Z) :=
  [ ("hour", 5 * 60 * 1000);
    ("day", 15 * 60 * 1000);
    ("week", 60 * 60 * 1000);
    ("historical", 24 * 60 * 60 * 1000) ].

(** [CACHE_DURATIONS] is an object literal, so a lookup by an arbitrary
    string also sees what it inherits from [Object.prototype]. *)
Definition Object_prototype_keys : list string :=
  [ "constructor"; "__defineGetter__"; "__defineSetter__"; "hasOwnProperty";
    "__lookupGetter__"; "__lookupSetter__"; "isPrototypeOf";
    "propertyIsEnumerable"; "toString"; "valueOf"; "__proto__";
    "toLocaleString" ].

Inductive PropertyValue : Type :=
| OwnNumber (n : Z)
| InheritedObject
| NoProperty.

Fixpoint own_property (table : list (string * Z)) (key : string) : option Z :=
  match table with
  | [] => None
  | (k, v) :: rest => if String.eqb k key then Some v else own_property rest key
  end.

(** [CACHE_DURATIONS[key]] *)
Definition CACHE_DURATIONS_get (key : string) : PropertyValue :=
  match own_property CACHE_DURATIONS key with
  | Some n => OwnNumber n
  | None =>
    if existsb (String.eqb key) Object_prototype_keys then InheritedObject
    else NoProperty
  end.

(** [CACHE_DURATIONS[timeRange] || CACHE_DURATIONS.day]: the value is a
    number of milliseconds, or an inherited function or object ([None]),
    which is truthy and converts to NaN in the comparison that follows. *)
Definition cacheDuration (timeRange : string) : option Z :=
  match CACHE_DURATIONS_get timeRange with
  | OwnNumber n => if n =? 0 then own_property CACHE_DURATIONS "day" else Some n
  | InheritedObject => None
  | NoProperty => own_property CACHE_DURATIONS "day"
  end.

(** What [cacheData] serialises under a key. *)
Record CacheItem : Type := mkItem { data : EarthquakeData; timestamp : Z }.

Inductive Level : Type := LOG | WARN | ERROR.

(** One line of the console: the level, the text, and the error object
    printed after it when there is one. *)
Record LogEntry : Type := mkLog {
  level : Level;
  line : string;
  thrown : option JsError;
}.

(** What a call can change: the store, and the console. *)
Record State : Type := mkState {
  localStorage : gmap string CacheItem;
  console : list LogEntry;
}.

Definition console_write (e : LogEntry) (st : State) : State :=
  mkState (localStorage st) (console st ++ [e]).

(** Get cached data if it's still valid.  In the browser [window] is defined;
    a stored item is the JSON text [cacheData] wrote, so parsing it succeeds. *)
Definition getCachedData (now : Z) (store : gmap string CacheItem)
    (key timeRange : string) : option EarthquakeData :=
  match store !! key with
  | None => None
  | Some cachedItem =>
    match cacheDuration timeRange with
    | Some duration =>
      if now - timestamp cachedItem <? duration then Some (data cachedItem)
      else None
    | None => None
    end
  end.

(** Cache data in localStorage.  [setItem] throws when the quota is
    exceeded; the error is logged and swallowed. *)
Definition cacheData (now : Z) (quota_exceeded : bool) (key : string)
    (d : EarthquakeData) (timeRange : string) (st : State) : State :=
  if quota_exceeded then
    console_write
      (mkLog WARN "Failed to cache earthquake data:"
             (Some (mkError "QuotaExceededError" "The quota has been exceeded.")))
      st
  else mkState (<[key := mkItem d now]> (localStorage st)) (console st).

(** ** lib/api.ts: the query *)

Record FetchEarthquakesParams : Type := mkParams {
  timeRange : string;
  minMagnitude : Q;
  startDate : DateField;
  endDate : DateField;
}.

(** Create a cache key based on the parameters *)
Definition cacheKey (p : FetchEarthquakesParams) : string :=
  "earthquake_data_" +:+ timeRange p +:+ "_" +:+
  Number_toString (minMagnitude p) +:+ "_" +:+
  DateField_or_empty (startDate p) +:+ "_" +:+
  DateField_or_empty (endDate p) +:+ "_iran".

(** The category given to the cache:
    [timeRange === "custom" ? "historical" : timeRange]. *)
Definition cacheCategory (p : FetchEarthquakesParams) : string :=
  if String.eqb (timeRange p) "custom" then "historical" else timeRange p.

(** [endDate && new Date(endDate) > now ? today : endDate] (line 48) *)
Definition validEndDate (now : Z) (endDate : DateField) : DateField :=
  match endDate with
  | DDate d => if now <? Date_getTime d then DDate (utc_date now) else endDate
  | _ => endDate
  end.

Definition buildUrl (now : Z) (p : FetchEarthquakesParams) : string :=
  if String.eqb (timeRange p) "custom" then
    "https://earthquake.usgs.gov/fdsnws/event/1/query?format=geojson" +:+
    "&starttime=" +:+ DateField_template (startDate p) +:+
    "&endtime=" +:+ DateField_template (validEndDate now (endDate p)) +:+
    "&minmagnitude=" +:+ Number_toString (minMagnitude p) +:+
    "&minlatitude=" +:+ Number_toString (IRAN_BOUNDS_at 1) +:+
    "&maxlatitude=" +:+ Number_toString (IRAN_BOUNDS_at 3) +:+
    "&minlongitude=" +:+ Number_toString (IRAN_BOUNDS_at 0) +:+
    "&maxlongitude=" +:+ Number_toString (IRAN_BOUNDS_at 2) +:+
    "&orderby=time" +:+
    "&limit=500"
  else
    "https://earthquake.usgs.gov/earthquakes/feed/v1.0/summary/all_" +:+
    timeRange p +:+ ".geojson".

(** ** The network *)

Module Response.

Record t : Type := mk {
  status : Z;
  statusText : string;
  (** [response.text()]; [None] when that promise rejects *)
  text : option string;
  (** [response.json()] *)
  json : Completion EarthquakeData;
}.

Definition ok (r : t) : bool := (200 <=? status r) && (status r <=? 299).

End Response.

(** How [await fetch(url, ...)] ends: the promise rejects (the 30 second
    abort, a transport failure) or a response arrives. *)
Inductive FetchOutcome : Type :=
| Rejects (e : JsError)
| Responds (r : Response.t).

(** The surroundings of one call: the clock, what the network answers to
    each URL, and whether [localStorage] is out of room. *)
Record World : Type := mkWorld {
  now : Z;
  fetch : string -> FetchOutcome;
  quota_exceeded : bool;
}.

(** ** lib/api.ts: [fetchEarthquakes] *)

(** [s.includes(sub)] *)
Definition includes (s sub : string) : bool :=
  match String.index 0 sub s with
  | Some _ => true
  | None => false
  end.

(** Lines 65-109: the rest of the [try] block once [url] is built. *)
Definition try_block (w : World) (p : FetchEarthquakesParams) (url : string)
    (st : State) : Completion EarthquakeData * State :=
  let st := console_write (mkLog LOG ("Fetching earthquake data from: " +:+ url) None) st in
  match fetch w url with
  | Rejects e => (Throw e, st)
  | Responds response =>
    if negb (Response.ok response) then
      let errorText :=
        match Response.text response with
        | Some t => t
        | None => "No error details available"
        end in
      let served :=
        "Server responded with " +:+
        Number_toString (inject_Z (Response.status response)) +:+ ": " in
      (Throw (Error (served +:+ Response.statusText response)),
       console_write (mkLog ERROR (served +:+ errorText) None) st)
    else
      match Response.json response with
      | Throw e => (Throw e, st)
      | Normal d =>
        match normalize (timeRange p) (minMagnitude p) d with
        | Throw e => (Throw e, st)
        | Normal d' =>
          (Normal d',
           cacheData (now w) (quota_exceeded w) (cacheKey p) d' (cacheCategory p) st)
        end
      end
  end.

(** What the [catch] block decides for a caught error. *)
Inductive CatchAction : Type :=
| Rethrow (e : JsError)
| FallBackToWeek.

(** Lines 113-137, with the warning each branch prints. *)
Definition catch_block (timeRange : string) (error : JsError)
  : option string * CatchAction :=
  if String.eqb (name error) "AbortError" then
    (None, Rethrow (Error "Request timed out. The USGS server might be experiencing high load."))
  else if includes (message error) "Failed to fetch" then
    (None, Rethrow (Error "Network error. Please check your internet connection and try again."))
  else if includes (message error) "400" then
    if includes (message error) "orderby" then
      (Some "Invalid orderby parameter detected",
       Rethrow (Error "API parameter error. Please try again with different settings."))
    else if String.eqb timeRange "custom" then
      (Some "Date range error detected, likely invalid date parameters",
       Rethrow (Error "Invalid date range. Please ensure your dates are valid and not in the future."))
    else (None, Rethrow (Error ("API error: " +:+ message error)))
  else
    if String.eqb timeRange "custom" then
      (Some "Historical data request failed, falling back to real-time data",
       FallBackToWeek)
    else
      (None, Rethrow (Error ("Failed to fetch earthquake data: " +:+ message error))).

Definition fallbackParams (p : FetchEarthquakesParams) : FetchEarthquakesParams :=
  mkParams "week" (minMagnitude p) DUndefined DUndefined.

(** One pass through the body of [fetchEarthquakes], up to the point where
    it returns, throws, or calls itself for the fallback. *)
Inductive Attempt : Type :=
| Done (result : Completion EarthquakeData) (st : State)
| CallsItself (p : FetchEarthquakesParams) (st : State).

Definition attempt (w : World) (p : FetchEarthquakesParams) (st : State) : Attempt :=
  (* Check if we have cached data *)
  match getCachedData (now w) (localStorage st) (cacheKey p) (cacheCategory p) with
  | Some cachedData => Done (Normal cachedData) st
  | None =>
    let url := buildUrl (now w) p in
    match try_block w p url st with
    | (Normal d, st') => Done (Normal d) st'
    | (Throw error, st') =>
      let st' :=
        console_write
          (mkLog ERROR ("Error fetching earthquake data from " +:+ url +:+ ":")
                 (Some error)) st' in
      let (warning, action) := catch_block (timeRange p) error in
      let st' :=
        match warning with
        | Some text => console_write (mkLog WARN text None) st'
        | None => st'
        end in
      match action with
      | Rethrow e => Done (Throw e) st'
      | FallBackToWeek => CallsItself (fallbackParams p) st'
      end
    end
  end.

(** The state a pass leaves. *)
Definition state_after (a : Attempt) : State :=
  match a with
  | Done _ st => st
  | CallsItself _ st => st
  end.

(** [fetchEarthquakes] calls itself in its fallback branch; [fuel] bounds the
    depth of that recursion, and [None] means the bound was reached. *)
Fixpoint fetchEarthquakes_rec (fuel : nat) (w : World)
    (p : FetchEarthquakesParams) (st : State)
  : option (Completion EarthquakeData * State) :=
  match fuel with
  | O => None
  | S fuel' =>
    match attempt w p st with
    | Done result st' => Some (result, st')
    | CallsItself p' st' => fetchEarthquakes_rec fuel' w p' st'
    end
  end.

(** A call never nests deeper than its one fallback (see
    [fetchEarthquakes_returns] and [fetchEarthquakes_fuel] below). *)
Definition fetchEarthquakes (w : World) (p : FetchEarthquakesParams) (st : State)
  : option (Completion EarthquakeData * State) :=
  fetchEarthquakes_rec 2 w p st.

(** ** The components: filters and their handlers *)

Record DateRange : Type := mkRange {
  range_startDate : DateField;
  range_endDate : DateField;
}.

(** The [filters] prop of the sidebar, which is also the state of the map
    component ([timeRange], [minMagnitude], [isHistorical], [dateRange]). *)
Record Filters : Type := mkFilters {
  filters_timeRange : string;
  filters_minMagnitude : Q;
  isHistorical : bool;
  dateRange : DateRange;
}.

Inductive DateInput : Type := startDateInput | endDateInput.

(** earthquake-sidebar.tsx, [handleDateChange]: the filters it hands to
    [onFilterChange]. *)
Definition handleDateChange (now : Z) (filters : Filters) (field : DateInput)
    (value : DateField) : Filters :=
  let today := DDate (utc_date now) in
  (* Validate end date to ensure it's not in the future *)
  let value :=
    match field with
    | endDateInput => if DateField_gt value today then today else value
    | startDateInput => value
    end in
  (* Ensure start date is not after end date *)
  let value :=
    match field with
    | startDateInput =>
      if DateField_gt value (range_endDate (dateRange filters))
      then range_endDate (dateRange filters) else value
    | endDateInput => value
    end in
  mkFilters (filters_timeRange filters) (filters_minMagnitude filters)
    (isHistorical filters)
    match field with
    | startDateInput => mkRange value (range_endDate (dateRange filters))
    | endDateInput => mkRange (range_startDate (dateRange filters)) value
    end.

(** The end date [handleFilterChange] stores (line 159). *)
Definition clampEndDate (now : Z) (endDate : DateField) : DateField :=
  let today := DDate (utc_date now) in
  if DateField_gt endDate today then today else endDate.

(** The map component's [handleFilterChange]: the state it sets. *)
Definition handleFilterChange (now : Z) (filters : Filters) : Filters :=
  mkFilters (filters_timeRange filters) (filters_minMagnitude filters)
    (isHistorical filters)
    (mkRange (range_startDate (dateRange filters))
             (clampEndDate now (range_endDate (dateRange filters)))).

(** The parameters [loadEarthquakeData] gives to [fetchEarthquakes], once the
    debounced values have caught up with the state. *)
Definition loadParams (f : Filters) : FetchEarthquakesParams :=
  mkParams (if isHistorical f then "custom" else filters_timeRange f)
    (filters_minMagnitude f)
    (range_startDate (dateRange f))
    (range_endDate (dateRange f)).

Definition loadEarthquakeData (w : World) (f : Filters) (st : State)
  : option (Completion EarthquakeData * State) :=
  fetchEarthquakes w (loadParams f) st.

(** ** The rest of the components *)

(** [v < c] for a number [c]; a comparison with NaN is false. *)
Definition js_lt (v : JsVal) (c : Q) : bool :=
  match ToNumber v with
  | Some x => negb (Qle_bool c x)
  | None => false
  end.

(** earthquake-sidebar.tsx, [formatMagnitude]: the colour class of the badge
    it returns.  The colour is chosen first; the badge then prints
    [magnitude.toFixed(1)], which throws when [magnitude] is [null] or
    [undefined], so that no badge is returned for them. *)
Definition formatMagnitude (magnitude : JsVal) : Completion string :=
  let color := "bg-green-500" in
  let color := if js_ge magnitude 2 then "bg-yellow-500" else color in
  let color := if js_ge magnitude 4 then "bg-orange-500" else color in
  let color := if js_ge magnitude 6 then "bg-red-500" else color in
  let color := if js_ge magnitude 8 then "bg-red-700" else color in
  match magnitude with
  | JNum _ => Normal color
  | JNull => Throw (TypeError "Cannot read properties of null (reading 'toFixed')")
  | JUndefined => Throw (TypeError "Cannot read properties of undefined (reading 'toFixed')")
  end.

(** The details card, [getMagnitudeColor]. *)
Definition getMagnitudeColor (mag : JsVal) : string :=
  if js_lt mag 2 then "bg-green-500"
  else if js_lt mag 4 then "bg-yellow-500"
  else if js_lt mag 6 then "bg-orange-500"
  else if js_lt mag 8 then "bg-red-500"
  else "bg-red-700".

(** A number as [Math.max] returns it. *)
Inductive JsNumber : Type :=
| NaN
| NegInfinity
| Finite (x : Q).

(** [Math.max(...vs)]: no argument gives [-Infinity], an argument that
    converts to NaN gives NaN. *)
Fixpoint Math_max (vs : list JsVal) : JsNumber :=
  match vs with
  | [] => NegInfinity
  | v :: rest =>
    match ToNumber v, Math_max rest with
    | None, _ => NaN
    | Some _, NaN => NaN
    | Some x, NegInfinity => Finite x
    | Some x, Finite y => Finite (if Qle_bool x y then y else x)
    end
  end.

(** The [properties] of every record, or [None] when one has none (reading
    a field of it then throws). *)
Fixpoint all_properties (earthquakes : list Earthquake)
  : option (list EarthquakeProperties) :=
  match earthquakes with
  | [] => Some []
  | eq :: rest =>
    match properties eq, all_properties rest with
    | Some p, Some ps => Some (p :: ps)
    | _, _ => None
    end
  end.

Record Stats : Type := mkStats {
  total : nat;
  significant : nat;
  recent24h : nat;
  maxMagnitude : JsNumber;
}.

(** earthquake-sidebar.tsx, the effect that calculates the statistics: the
    state [stats] after it ran at time [now]. *)
Definition calculateStats (now : Z) (earthquakes : list Earthquake)
    (stats : Stats) : Completion Stats :=
  if (length earthquakes =? 0)%nat then Normal stats
  else
    let last24h := now - 24 * 60 * 60 * 1000 in
    match all_properties earthquakes with
    | None => Throw (TypeError "Cannot read properties of undefined (reading 'mag')")
    | Some ps =>
      Normal (mkStats
        (length earthquakes)
        (length (List.filter (fun p => js_ge (mag p) 4) ps))
        (length (List.filter (fun p => last24h <=? time p) ps))
        (Math_max (map mag ps)))
    end.

(** The event time the comparator reads. *)
Definition time_of (eq : Earthquake) : Z :=
  match properties eq with
  | Some p => time p
  | None => 0
  end.

(** [Array.prototype.sort] is stable; with the comparator
    [(a, b) => b.properties.time - a.properties.time] an element goes in
    front of the first one that is not more recent than it. *)
Fixpoint insert_by_time (eq : Earthquake) (sorted : list Earthquake)
  : list Earthquake :=
  match sorted with
  | [] => [eq]
  | b :: rest =>
    if time_of b - time_of eq <=? 0 then eq :: b :: rest
    else b :: insert_by_time eq rest
  end.

Definition sort_by_time (l : list Earthquake) : list Earthquake :=
  foldr insert_by_time [] l.

(** earthquake-sidebar.tsx, [sortedEarthquakes]: most recent first.  The
    comparator runs as soon as there are two records, and throws on a
    record without [properties]. *)
Definition sortedEarthquakes (filteredEarthquakes : list Earthquake)
  : Completion (list Earthquake) :=
  match filteredEarthquakes with
  | [] | [_] => Normal filteredEarthquakes
  | _ =>
    match all_properties filteredEarthquakes with
    | None => Throw (TypeError "Cannot read properties of undefined (reading 'time')")
    | Some _ => Normal (sort_by_time filteredEarthquakes)
    end
  end.

(** The map component's default date range: the past 90 days up to today. *)
Definition initialDateRange (now : Z) : DateRange :=
  mkRange (DDate (utc_date (now - 90 * 24 * 60 * 60 * 1000))) (DDate (utc_date now)).

(** How [loadEarthquakeData] ends: the collection it puts in the state, or
    the message it puts in [error] and in the toast. *)
Inductive LoadOutcome : Type :=
| Loaded (earthquakes : EarthquakeData)
| Failed (errorMessage : string).

(** [err.message || "Failed to load earthquake data. Please try again."] *)
Definition errorMessage_of (err : JsError) : string :=
  if String.eqb (message err) "" then "Failed to load earthquake data. Please try again."
  else message err.

(** The map component's [loadEarthquakeData]: the call, the check of what
    came back, and its own [catch]. *)
Definition loadEarthquakeData_outcome (w : World) (f : Filters) (st : State)
  : option (LoadOutcome * State) :=
  match fetchEarthquakes w (loadParams f) st with
  | None => None
  | Some (result, st') =>
    let checked :=
      match result with
      | Normal d =>
        match features d with
        | Some _ => Normal d
        | None => Throw (Error "Invalid data received from the server")
        end
      | Throw err => Throw err
      end in
    match checked with
    | Normal d => Some (Loaded d, st')
    | Throw err =>
      Some (Failed (errorMessage_of err),
            console_write (mkLog ERROR "Error fetching earthquake data:" (Some err)) st')
    end
  end.

(** The same world with room in [localStorage]. *)
Definition with_room (w : World) : World := mkWorld (now w) (fetch w) false.

(** The first two coordinates are numbers inside the bounding box. *)
Definition inside_box (f : Earthquake) : Prop :=
  exists lon lat rest,
    geometry f = Some (mkGeometry (Some (JNum lon :: JNum lat :: rest))) /\
    (44 <= lon /\ lon <= 63)%Q /\ (25 <= lat /\ lat <= 40)%Q.

(** The magnitude as the post-filter reads it is at least [minMagnitude]. *)
Definition strong_enough (minMagnitude : Q) (f : Earthquake) : Prop :=
  exists p m, properties f = Some p /\ ToNumber (mag p) = Some m /\
    (minMagnitude <= m)%Q.

(** The date of a field that holds one is not after [d]. *)
Definition not_after (field : DateField) (d : CalendarDate) : Prop :=
  forall c, field = DDate c -> days_from_epoch c <= days_from_epoch d.

(** Two date fields hold the same date, or neither holds one. *)
Definition same_date (a b : DateField) : Prop :=
  match a, b with
  | DDate x, DDate y => x = y
  | DDate _, _ | _, DDate _ => False
  | _, _ => True
  end.

(** ** The vocabulary of the specification *)

(** The longitude, latitude and magnitude of a record that has all three as
    numbers (a well-formed record of the specification). *)
Definition lon_lat_mag (f : Earthquake) : option (Q * Q * Q) :=
  match geometry f, properties f with
  | Some (mkGeometry (Some (JNum lon :: JNum lat :: _))), Some p =>
    match mag p with
    | JNum m => Some (lon, lat, m)
    | _ => None
    end
  | _, _ => None
  end.

Definition well_formed (f : Earthquake) : Prop := is_Some (lon_lat_mag f).

(** Inside the fixed bounding box [44.0, 25.0, 63.0, 40.0] and at least as
    strong as the query asks. *)
Definition within_box_and_magnitude (minMagnitude : Q) (f : Earthquake) : Prop :=
  exists lon lat m,
    lon_lat_mag f = Some (lon, lat, m) /\
    (44 <= lon /\ lon <= 63)%Q /\ (25 <= lat /\ lat <= 40)%Q /\
    (minMagnitude <= m)%Q.

Definition within_box_and_magnitudeb (minMagnitude : Q) (f : Earthquake) : bool :=
  match lon_lat_mag f with
  | Some (lon, lat, m) =>
    Qle_bool 44 lon && Qle_bool lon 63 && Qle_bool 25 lat && Qle_bool lat 40 &&
    Qle_bool minMagnitude m
  | None => false
  end.

(** The warning the fallback branch prints, and the line each request prints. *)
Definition fallback_warning : LogEntry :=
  mkLog WARN "Historical data request failed, falling back to real-time data" None.

Definition is_fallback_warning (e : LogEntry) : bool :=
  match level e, thrown e with
  | WARN, None =>
    String.eqb (line e) "Historical data request failed, falling back to real-time data"
  | _, _ => false
  end.

Definition request_line (url : string) : LogEntry :=
  mkLog LOG ("Fetching earthquake data from: " +:+ url) None.

Definition is_request_line (e : LogEntry) : bool :=
  match level e with
  | LOG => String.prefix "Fetching earthquake data from: " (line e)
  | _ => false
  end.

(** How many fallbacks, and how many requests, a stretch of console shows. *)
Definition fallbacks (lines : list LogEntry) : nat :=
  length (List.filter is_fallback_warning lines).

Definition requests (lines : list LogEntry) : nat :=
  length (List.filter is_request_line lines).

(** An error the [catch] block sends to the fallback: not an abort, and a
    message with neither "Failed to fetch" nor "400" in it. *)
Definition fallback_eligible (e : JsError) : bool :=
  negb (String.eqb (name e) "AbortError") &&
  negb (includes (message e) "Failed to fetch") &&
  negb (includes (message e) "400").

(** A transport failure as the [catch] block recognises it. *)
Definition is_network_error (e : JsError) : bool :=
  negb (String.eqb (name e) "AbortError") &&
  includes (message e) "Failed to fetch".


(** How the request of a query ends (the [try] block), whatever the state it
    runs in: the data it returns, or the error it throws. *)
Definition request_outcome (w : World) (p : FetchEarthquakesParams)
  : Completion EarthquakeData :=
  fst (try_block w p (buildUrl (now w) p) (mkState ∅ [])).

(** The cache has nothing valid for the query. *)
Definition cache_miss (w : World) (p : FetchEarthquakesParams) (st : State) : Prop :=
  getCachedData (now w) (localStorage st) (cacheKey p) (cacheCategory p) = None.

(** The record has a coordinates array and a properties object: the
    post-filter can read it without a throw. *)
Definition readable (f : Earthquake) : Prop :=
  (exists cs, geometry f = Some (mkGeometry (Some cs))) /\ is_Some (properties f).

(** The coordinates array does not start with a longitude and a latitude
    that are numbers (it is short, or holds [null]). *)
Definition lacks_position (f : Earthquake) : Prop :=
  exists cs, geometry f = Some (mkGeometry (Some cs)) /\
    forall lon lat rest, cs <> JNum lon :: JNum lat :: rest.

(** The [mag] key is absent. *)
Definition lacks_magnitude (f : Earthquake) : Prop :=
  exists p, properties f = Some p /\ mag p = JUndefined.

(** There is no coordinates array at all. *)
Definition lacks_coordinates (f : Earthquake) : Prop :=
  geometry f = None \/ geometry f = Some (mkGeometry None).

(** ** Sample records, payloads and worlds *)

Definition tehran : Earthquake :=
  mkEarthquake "us7000abcd"
    (Some (mkProperties (JNum (45 # 10)) "12 km N of Tehran, Iran" 1762100000000))
    (Some (mkGeometry (Some [JNum (514 # 10); JNum (357 # 10); JNum 10]))).

Definition tokyo : Earthquake :=
  mkEarthquake "us7000efgh"
    (Some (mkProperties (JNum 5) "30 km E of Tokyo, Japan" 1762100100000))
    (Some (mkGeometry (Some [JNum (1397 # 10); JNum (357 # 10); JNum 40]))).

Definition shiraz_weak : Earthquake :=
  mkEarthquake "us7000ijkl"
    (Some (mkProperties (JNum (15 # 10)) "8 km S of Shiraz, Iran" 1762100200000))
    (Some (mkGeometry (Some [JNum (525 # 10); JNum (296 # 10); JNum 8]))).

(** A record with no [geometry]. *)
Definition no_geometry : Earthquake :=
  mkEarthquake "us7000mnop"
    (Some (mkProperties (JNum 4) "Somewhere" 1762100300000)) None.

(** A record in the box with no [mag] key. *)
Definition no_magnitude : Earthquake :=
  mkEarthquake "us7000qrst"
    (Some (mkProperties JUndefined "Near Yazd, Iran" 1762100400000))
    (Some (mkGeometry (Some [JNum (544 # 10); JNum (319 # 10); JNum 12]))).

Definition sample_metadata (n : Z) : Metadata :=
  mkMetadata 1762128000000 "https://earthquake.usgs.gov/" "USGS Earthquakes" 200 "1.14.1" n.

Definition ok_response (d : EarthquakeData) : Response.t :=
  Response.mk 200 "OK" None (Normal d).

Definition unavailable : Response.t :=
  Response.mk 503 "Service Unavailable" (Some "upstream is down")
    (Throw (mkError "SyntaxError" "Unexpected token u in JSON at position 0")).

Definition is_query_url (url : string) : bool :=
  String.prefix "https://earthquake.usgs.gov/fdsnws/event/1/query" url.

(** 2025-11-03T00:00:00Z *)
Definition sample_now : Z := 1762128000000.

Definition empty_state : State := mkState ∅ [].

Definition historical_query : FetchEarthquakesParams :=
  mkParams "custom" 2 (DDate (mkDate 2025 8 1)) (DDate (mkDate 2025 10 31)).

Definition day_query : FetchEarthquakesParams :=
  mkParams "day" 2 (DDate (mkDate 2025 8 1)) (DDate (mkDate 2025 10 31)).

(** No connection: every [fetch] rejects the way the browser does offline. *)
Definition world_offline : World :=
  mkWorld sample_now (fun _ => Rejects (TypeError "Failed to fetch")) false.

(** The query service is down and the connection is then lost. *)
Definition world_down_then_offline : World :=
  mkWorld sample_now
    (fun url => if is_query_url url then Responds unavailable
                else Rejects (TypeError "Failed to fetch"))
    false.

(** The query service is down; the feeds answer. *)
Definition world_query_down : World :=
  mkWorld sample_now
    (fun url => if is_query_url url then Responds unavailable
                else Responds (ok_response
                       (mkData (Some (sample_metadata 3)) (Some [tehran; tokyo; shiraz_weak]))))
    false.

(** The query service answers with a count that is not the number of its
    records. *)
Definition world_miscounted : World :=
  mkWorld sample_now
    (fun _ => Responds (ok_response (mkData (Some (sample_metadata 5)) (Some [tehran]))))
    false.

(** A feed with one record that has no geometry among good ones. *)
Definition world_one_malformed : World :=
  mkWorld sample_now
    (fun _ => Responds (ok_response
                (mkData (Some (sample_metadata 2)) (Some [no_geometry; tehran]))))
    false.

(** Does the text hold an underscore, the separator of the cache key? *)
Fixpoint has_underscore (s : string) : bool :=
  match s with
  | EmptyString => false
  | String c rest => Ascii.eqb c "_" || has_underscore rest
  end.

(** The slider positions, in tenths. *)
Definition slider_tenths : list Z := map Z.of_nat (seq 0 91).

(** A position of the magnitude slider ([min 0], [max 9], [step 0.1]). *)
Definition slider_position (m : Q) : Prop :=
  exists k : Z, 0 <= k <= 90 /\ (m == k # 10)%Q.

(** Real-time filters for the day feed at magnitude 2, with the date range
    the component keeps in its state all the same. *)
Definition realtime_filters (start : CalendarDate) : Filters :=
  mkFilters "day" 2 false (mkRange (DDate start) (DDate (mkDate 2025 11 3))).

(** Historical filters with the range 2024-06-01 to 2024-12-01. *)
Definition sample_filters : Filters :=
  mkFilters "day" 2 true
    (mkRange (DDate (mkDate 2024 6 1)) (DDate (mkDate 2024 12 1))).

(** The day feed answers at [sample_now]. *)
Definition world_feed_up : World :=
  mkWorld sample_now
    (fun _ => Responds (ok_response
                (mkData (Some (sample_metadata 3)) (Some [tehran; tokyo; shiraz_weak]))))
    false.

(** Every request runs into the 30 second abort. *)
Definition world_timeout : World :=
  mkWorld sample_now
    (fun _ => Rejects (mkError "AbortError" "The user aborted a request.")) false.

(** The service rejects the query with status 400. *)
Definition world_bad_request : World :=
  mkWorld sample_now
    (fun _ => Responds (Response.mk 400 "Bad Request" (Some "Error 400: Bad Request")
                          (Throw (mkError "SyntaxError" "Unexpected token E in JSON at position 0"))))
    false.

(** A record with a [null] magnitude, which reads as 0. *)
Definition null_magnitude : Earthquake :=
  mkEarthquake "us7000uvwx"
    (Some (mkProperties JNull "Near Kerman, Iran" 1762100500000))
    (Some (mkGeometry (Some [JNum (571 # 10); JNum (303 # 10); JNull]))).

(** The query service answers with a body that has no [features]. *)
Definition world_no_features : World :=
  mkWorld sample_now
    (fun _ => Responds (ok_response (mkData (Some (sample_metadata 0)) None))) false.

(** * Properties *)

(** ** The post-filter *)

Lemma within_box_and_magnitudeb_spec minMagnitude f :
  within_box_and_magnitudeb minMagnitude f = true <->
  within_box_and_magnitude minMagnitude f.
Proof.
  unfold within_box_and_magnitudeb, within_box_and_magnitude.
  destruct (lon_lat_mag f) as [[[lon lat] m]|].
  - rewrite !andb_true_iff, !Qle_bool_iff. split.
    + intros [[[[H1 H2] H3] H4] H5]. exists lon, lat, m. auto.
    + intros (lon' & lat' & m' & E & [H1 H2] & [H3 H4] & H5).
      injection E as -> -> ->. auto.
  - split; [discriminate|]. intros (? & ? & ? & E & _). discriminate.
Qed.

Lemma filter_callback_well_formed minMagnitude f :
  well_formed f ->
  filter_callback minMagnitude f = Normal (within_box_and_magnitudeb minMagnitude f).
Proof.
  intros [[[lon lat] m] E]. unfold within_box_and_magnitudeb. rewrite E.
  unfold lon_lat_mag in E. unfold filter_callback.
  destruct (geometry f) as [[[cs|]]|]; try discriminate.
  destruct cs as [|[| |lon'] [|[| |lat'] rest]]; try discriminate.
  destruct (properties f) as [p|]; try discriminate.
  destruct (mag p) as [| |m'] eqn:Em; try discriminate.
  injection E as -> -> ->. cbn [nth]. unfold js_ge, js_le, IRAN_BOUNDS_at. cbn.
  destruct (Qle_bool 44 lon && Qle_bool lon 63 && Qle_bool 25 lat && Qle_bool lat 40);
    reflexivity.
Qed.

Lemma array_filter_total {A} (cb : A -> Completion bool) (keep : A -> bool) l :
  Forall (fun x => cb x = Normal (keep x)) l ->
  array_filter cb l = Normal (List.filter keep l).
Proof.
  induction 1 as [|x l Hx _ IH]; cbn; [reflexivity|].
  rewrite Hx, IH. reflexivity.
Qed.

Lemma array_filter_throws {A} (cb : A -> Completion bool) l :
  Exists (fun x => exists e, cb x = Throw e) l ->
  exists e, array_filter cb l = Throw e.
Proof.
  induction 1 as [x l [e He]|x l _ [e IH]]; cbn.
  - rewrite He. eauto.
  - destruct (cb x); [rewrite IH|]; eauto.
Qed.

(** C1: for a real-time query, normalization keeps exactly the records inside
    the fixed bounding box whose magnitude is at least [minMagnitude], in
    their order, and sets [metadata.count] to the number of records kept. *)
Theorem realtime_post_filter timeRange minMagnitude md fs :
  timeRange <> "custom" ->
  Forall well_formed fs ->
  let kept := List.filter (within_box_and_magnitudeb minMagnitude) fs in
  normalize timeRange minMagnitude (mkData (Some md) (Some fs)) =
    Normal (mkData (Some (set_count md (Z.of_nat (length kept)))) (Some kept)) /\
  (forall f, In f kept <-> In f fs /\ within_box_and_magnitude minMagnitude f) /\
  count (set_count md (Z.of_nat (length kept))) = Z.of_nat (length kept).
Proof.
  intros Hrt Hwf kept. split; [|split].
  - unfold normalize. apply String.eqb_neq in Hrt. rewrite Hrt. cbn.
    rewrite (array_filter_total _ (within_box_and_magnitudeb minMagnitude)).
    + reflexivity.
    + eapply Forall_impl; [exact Hwf|]. intros f. apply filter_callback_well_formed.
  - intros f. unfold kept. rewrite filter_In, within_box_and_magnitudeb_spec. tauto.
  - reflexivity.
Qed.

(** A day feed with a record near Tehran, one near Tokyo and a weak one near
    Shiraz, at minimum magnitude 2: only the first is kept. *)
Lemma realtime_post_filter_witness :
  normalize "day" 2 (mkData (Some (sample_metadata 3)) (Some [tehran; tokyo; shiraz_weak])) =
    Normal (mkData (Some (sample_metadata 1)) (Some [tehran])) /\
  (In tehran [tehran] <->
   In tehran [tehran; tokyo; shiraz_weak] /\ within_box_and_magnitude 2 tehran).
Proof.
  assert (Hrt : "day" <> "custom") by discriminate.
  assert (Hwf : Forall well_formed [tehran; tokyo; shiraz_weak])
    by (repeat constructor; eexists; reflexivity).
  destruct (realtime_post_filter "day" 2 (sample_metadata 3)
              [tehran; tokyo; shiraz_weak] Hrt Hwf) as (Hn & Hin & _).
  split; [exact Hn|exact (Hin tehran)].
Defined.

(** ** The shape of a call *)

Lemma catch_block_fallback tr e warning :
  catch_block tr e = (warning, FallBackToWeek) ->
  tr = "custom" /\ fallback_eligible e = true /\
  warning = Some (line fallback_warning).
Proof.
  unfold catch_block, fallback_eligible.
  destruct (String.eqb (name e) "AbortError"); [discriminate|].
  destruct (includes (message e) "Failed to fetch"); [discriminate|].
  destruct (includes (message e) "400").
  - destruct (includes (message e) "orderby"); [discriminate|].
    destruct (String.eqb tr "custom"); discriminate.
  - destruct (String.eqb tr "custom") eqn:E; [|discriminate].
    apply String.eqb_eq in E. intros [= <-]. auto.
Qed.

Lemma catch_block_eligible e :
  fallback_eligible e = true ->
  catch_block "custom" e = (Some (line fallback_warning), FallBackToWeek).
Proof.
  unfold catch_block, fallback_eligible. rewrite !andb_true_iff, !negb_true_iff.
  intros [[-> ->] ->]. reflexivity.
Qed.

Lemma catch_block_network tr e :
  is_network_error e = true ->
  catch_block tr e =
    (None, Rethrow (Error "Network error. Please check your internet connection and try again.")).
Proof.
  unfold catch_block, is_network_error. rewrite andb_true_iff, negb_true_iff.
  intros [-> ->]. reflexivity.
Qed.

Lemma attempt_calls_itself w p st p' st' :
  attempt w p st = CallsItself p' st' ->
  timeRange p = "custom" /\ p' = fallbackParams p /\
  localStorage st' = localStorage st.
Proof.
  unfold attempt.
  destruct (getCachedData _ _ _ _); [discriminate|].
  destruct (try_block w p (buildUrl (now w) p) st) as [[d|e] st1] eqn:Et; [discriminate|].
  destruct (catch_block (timeRange p) e) as [warning [e'|]] eqn:Ec; [discriminate|].
  apply catch_block_fallback in Ec as (Htr & _ & ->).
  intros [= <- <-]. split; [exact Htr|]. split; [reflexivity|].
  cbn. unfold try_block in Et.
  destruct (fetch w _) as [e0|r].
  - injection Et as _ <-. reflexivity.
  - destruct (negb (Response.ok r)).
    + injection Et as _ <-. reflexivity.
    + destruct (Response.json r) as [d|e1].
      * destruct (normalize _ _ d); [discriminate|]. injection Et as _ <-. reflexivity.
      * injection Et as _ <-. reflexivity.
Qed.

Lemma attempt_realtime_done w p st :
  timeRange p <> "custom" ->
  exists result st', attempt w p st = Done result st'.
Proof.
  intros Hrt. destruct (attempt w p st) as [r s|p' s] eqn:E; [eauto|].
  apply attempt_calls_itself in E as [E _]. contradiction.
Qed.

Lemma fetchEarthquakes_unfold w p st :
  fetchEarthquakes w p st =
  match attempt w p st with
  | Done result st' => Some (result, st')
  | CallsItself p' st' =>
    match attempt w p' st' with
    | Done result st'' => Some (result, st'')
    | CallsItself _ _ => None
    end
  end.
Proof. reflexivity. Qed.

Lemma fallbackParams_realtime p : timeRange (fallbackParams p) <> "custom".
Proof. discriminate. Qed.

(** The call always comes back, with a value or a thrown error: the depth
    bound of the model is never reached. *)
Theorem fetchEarthquakes_returns w p st :
  exists result st', fetchEarthquakes w p st = Some (result, st').
Proof.
  rewrite fetchEarthquakes_unfold.
  destruct (attempt w p st) as [r s|p' s] eqn:E; [eauto|].
  apply attempt_calls_itself in E as (_ & -> & _).
  destruct (attempt_realtime_done w (fallbackParams p) s (fallbackParams_realtime p))
    as (r & s' & ->).
  eauto.
Qed.

(** More fuel changes nothing. *)
Theorem fetchEarthquakes_fuel n w p st :
  fetchEarthquakes_rec (2 + n) w p st = fetchEarthquakes w p st.
Proof.
  rewrite fetchEarthquakes_unfold. cbn [Nat.add fetchEarthquakes_rec].
  destruct (attempt w p st) as [r s|p' s] eqn:E; [reflexivity|].
  apply attempt_calls_itself in E as (_ & -> & _).
  destruct (attempt_realtime_done w (fallbackParams p) s (fallbackParams_realtime p))
    as (r & s' & ->).
  reflexivity.
Qed.

(** What one pass adds to the console: at most one request line, and the
    fallback warning exactly when the pass ends in the recursive call. *)
Lemma attempt_console w p st :
  exists lines,
    console (state_after (attempt w p st)) = (console st ++ lines)%list /\
    (requests lines <= 1)%nat /\
    fallbacks lines =
      match attempt w p st with
      | Done _ _ => O
      | CallsItself _ _ => 1%nat
      end.
Proof.
  unfold attempt.
  destruct (getCachedData _ _ _ _).
  { exists []. cbn. rewrite app_nil_r. auto. }
  unfold try_block.
  destruct (fetch w _) as [e|r]; [|destruct (negb (Response.ok r));
    [|destruct (Response.json r) as [d|e];
      [destruct (normalize _ _ d) as [d'|e]; [unfold cacheData; destruct (quota_exceeded w)|]|]]].
  all: try (unfold catch_block;
    destruct (String.eqb (name _) "AbortError");
    [|destruct (includes _ "Failed to fetch");
      [|destruct (includes _ "400");
        [destruct (includes _ "orderby"); [|destruct (String.eqb (timeRange p) "custom")]
        |destruct (String.eqb (timeRange p) "custom")]]]).
  all: cbn [state_after console console_write localStorage];
    rewrite <- ?app_assoc; eexists; (split; [reflexivity|]).
  all: (split; [|reflexivity]).
  all: unfold requests; cbn; destruct (String.prefix _ _); cbn; lia.
Qed.

Lemma try_block_outcome w p url st st0 :
  fst (try_block w p url st) = fst (try_block w p url st0).
Proof.
  unfold try_block. destruct (fetch w url) as [e|r]; [reflexivity|].
  destruct (negb (Response.ok r)); [reflexivity|].
  destruct (Response.json r) as [d|e]; [|reflexivity].
  destruct (normalize _ _ d); reflexivity.
Qed.

Lemma try_block_throw_store w p url st e st1 :
  try_block w p url st = (Throw e, st1) -> localStorage st1 = localStorage st.
Proof.
  unfold try_block. destruct (fetch w url) as [e0|r]; [intros [= _ <-]; reflexivity|].
  destruct (negb (Response.ok r)); [intros [= _ <-]; reflexivity|].
  destruct (Response.json r) as [d|e1]; [|intros [= _ <-]; reflexivity].
  destruct (normalize _ _ d); [discriminate|intros [= _ <-]; reflexivity].
Qed.

Lemma try_block_request w p st :
  exists st1, try_block w p (buildUrl (now w) p) st = (request_outcome w p, st1).
Proof.
  unfold request_outcome. rewrite (try_block_outcome w p _ (mkState ∅ []) st).
  destruct (try_block w p _ st) as [r st1]. eauto.
Qed.

(** A query that finds nothing in the cache and whose request throws [e]:
    the state in which the [catch] block then decides. *)
Lemma attempt_failed w p st e :
  cache_miss w p st -> request_outcome w p = Throw e ->
  exists st1, localStorage st1 = localStorage st /\
    attempt w p st =
      match catch_block (timeRange p) e with
      | (warning, Rethrow e') =>
        Done (Throw e')
          match warning with
          | Some text => console_write (mkLog WARN text None) st1
          | None => st1
          end
      | (warning, FallBackToWeek) =>
        CallsItself (fallbackParams p)
          match warning with
          | Some text => console_write (mkLog WARN text None) st1
          | None => st1
          end
      end.
Proof.
  intros Hmiss Hreq. unfold attempt. rewrite Hmiss.
  destruct (try_block_request w p st) as [st1 Et]. rewrite Hreq in Et. rewrite Et.
  apply try_block_throw_store in Et as Hs.
  eexists. split; [|destruct (catch_block _ e) as [warning [e'|]]; reflexivity].
  exact Hs.
Qed.

Lemma fetchEarthquakes_realtime w p st :
  timeRange p <> "custom" ->
  exists result st', attempt w p st = Done result st' /\
    fetchEarthquakes w p st = Some (result, st').
Proof.
  intros Hrt. destruct (attempt_realtime_done w p st Hrt) as (r & s & E).
  exists r, s. rewrite fetchEarthquakes_unfold, E. auto.
Qed.

Lemma fetchEarthquakes_falls_back w p st p' st1 :
  attempt w p st = CallsItself p' st1 ->
  p' = fallbackParams p /\
  fetchEarthquakes w p st = fetchEarthquakes w (fallbackParams p) st1.
Proof.
  intros E. destruct (attempt_calls_itself _ _ _ _ _ E) as (_ & -> & _).
  split; [reflexivity|].
  rewrite (fetchEarthquakes_unfold w p), E.
  destruct (fetchEarthquakes_realtime w (fallbackParams p) st1 (fallbackParams_realtime p))
    as (r & s & Ea & ->).
  rewrite Ea. reflexivity.
Qed.

(** ** The fallback *)

Lemma fallbacks_app l1 l2 : fallbacks (l1 ++ l2) = (fallbacks l1 + fallbacks l2)%nat.
Proof. unfold fallbacks. rewrite List.filter_app, length_app. reflexivity. Qed.

Lemma requests_app l1 l2 : requests (l1 ++ l2) = (requests l1 + requests l2)%nat.
Proof. unfold requests. rewrite List.filter_app, length_app. reflexivity. Qed.

Lemma cache_miss_store w p st st1 :
  localStorage st1 = localStorage st -> cache_miss w p st -> cache_miss w p st1.
Proof. unfold cache_miss. intros ->. auto. Qed.

(** C2, as the code has it: a call falls back at most once and makes at most
    one request more than it falls back; a real-time query never falls back;
    a historical query whose request fails with a network error ("Failed to
    fetch") is not retried and surfaces the network message; a historical
    query whose request fails with an error that is neither an abort, nor a
    network error, nor contains "400" is retried once, as the week feed at
    the same minimum magnitude and without dates, and the call ends as that
    retry ends. *)
Theorem fallback_policy w p st :
  exists result st' lines,
    fetchEarthquakes w p st = Some (result, st') /\
    console st' = (console st ++ lines)%list /\
    (fallbacks lines <= 1)%nat /\
    (requests lines <= 1 + fallbacks lines)%nat /\
    (timeRange p <> "custom" -> fallbacks lines = 0%nat) /\
    (forall e,
       timeRange p = "custom" -> cache_miss w p st ->
       request_outcome w p = Throw e ->
       (is_network_error e = true ->
        fallbacks lines = 0%nat /\
        result = Throw (Error "Network error. Please check your internet connection and try again.")) /\
       (fallback_eligible e = true ->
        fallbacks lines = 1%nat /\
        exists st1,
          localStorage st1 = localStorage st /\
          fetchEarthquakes w (mkParams "week" (minMagnitude p) DUndefined DUndefined) st1 =
            Some (result, st'))).
Proof.
  destruct (attempt_console w p st) as (l1 & Hc1 & Hr1 & Hf1).
  destruct (attempt w p st) as [r s|p' s1] eqn:E.
  - exists r, s, l1. rewrite fetchEarthquakes_unfold, E. cbn in Hc1.
    split; [reflexivity|]. split; [exact Hc1|].
    split; [lia|]. split; [lia|]. split; [intros _; exact Hf1|].
    intros e Hcustom Hmiss Hreq.
    destruct (attempt_failed w p st e Hmiss Hreq) as (st1 & _ & Ea). rewrite E in Ea.
    split; intros He.
    + rewrite (catch_block_network _ _ He) in Ea. split; [exact Hf1|congruence].
    + rewrite Hcustom, (catch_block_eligible _ He) in Ea. discriminate.
  - destruct (attempt_calls_itself _ _ _ _ _ E) as (Hcustom & -> & Hstore).
    destruct (fetchEarthquakes_falls_back _ _ _ _ _ E) as [_ Hfb].
    destruct (fetchEarthquakes_realtime w (fallbackParams p) s1 (fallbackParams_realtime p))
      as (r & s2 & Ea & Hweek).
    destruct (attempt_console w (fallbackParams p) s1) as (l2 & Hc2 & Hr2 & Hf2).
    rewrite Ea in Hc2, Hf2. cbn in Hc1, Hc2.
    exists r, s2, (l1 ++ l2)%list. rewrite Hfb, Hweek.
    rewrite fallbacks_app, requests_app, Hf1, Hf2, app_assoc, <- Hc1.
    split; [reflexivity|]. split; [exact Hc2|].
    split; [lia|]. split; [lia|]. split; [intros Hrt; contradiction|].
    intros e _ Hmiss Hreq.
    destruct (attempt_failed w p st e Hmiss Hreq) as (st1 & _ & Ea'). rewrite E in Ea'.
    split; intros He.
    + rewrite (catch_block_network _ _ He) in Ea'. discriminate.
    + split; [reflexivity|]. exists s1. split; [exact Hstore|exact Hweek].
Qed.

(** C2 as stated fails: offline, the browser rejects [fetch] with "Failed to
    fetch"; the historical call then surfaces the network message after its
    single request, without falling back to the week feed. *)
Lemma network_error_is_not_retried :
  exists st',
    request_outcome world_offline historical_query = Throw (TypeError "Failed to fetch") /\
    fetchEarthquakes world_offline historical_query empty_state =
      Some (Throw (Error "Network error. Please check your internet connection and try again."), st') /\
    fallbacks (console st') = 0%nat /\ requests (console st') = 1%nat.
Proof.
  eexists. split; [reflexivity|]. split; [vm_compute; reflexivity|].
  split; vm_compute; reflexivity.
Qed.

(** The query service answers 503: the call falls back once, and ends as the
    week-feed call ends. *)
Lemma fallback_policy_witness :
  exists result st' lines,
    fetchEarthquakes world_down_then_offline historical_query empty_state = Some (result, st') /\
    fallbacks lines = 1%nat /\
    exists st1,
      localStorage st1 = localStorage empty_state /\
      fetchEarthquakes world_down_then_offline
        (mkParams "week" (minMagnitude historical_query) DUndefined DUndefined) st1 =
        Some (result, st').
Proof.
  destruct (fallback_policy world_down_then_offline historical_query empty_state)
    as (result & st' & lines & Hcall & _ & _ & _ & _ & Hfail).
  exists result, st', lines. split; [exact Hcall|].
  apply (Hfail (Error "Server responded with 503: Service Unavailable"));
    vm_compute; reflexivity.
Defined.

(** ** When the fallback fails too *)

(** C8, as the code has it: when the historical request fails, the week feed
    is tried and its request fails too, the error surfaced is the one the
    [catch] block makes of the fallback's error; the error of the historical
    attempt is only logged. *)
Theorem fallback_failure_surfaces_fallback_error w p st e1 e2 :
  timeRange p = "custom" ->
  cache_miss w p st -> request_outcome w p = Throw e1 ->
  fallback_eligible e1 = true ->
  cache_miss w (fallbackParams p) st ->
  request_outcome w (fallbackParams p) = Throw e2 ->
  exists warning e' st',
    catch_block "week" e2 = (warning, Rethrow e') /\
    fetchEarthquakes w p st = Some (Throw e', st').
Proof.
  intros Hcustom Hmiss Hreq Hel Hmiss2 Hreq2.
  destruct (attempt_failed w p st e1 Hmiss Hreq) as (st1 & Hs1 & Ea).
  rewrite Hcustom, (catch_block_eligible _ Hel) in Ea.
  destruct (fetchEarthquakes_falls_back _ _ _ _ _ Ea) as [_ ->].
  set (s1 := console_write _ st1) in *.
  assert (Hm : cache_miss w (fallbackParams p) s1)
    by (apply (cache_miss_store w _ st); [exact Hs1|exact Hmiss2]).
  destruct (attempt_failed w (fallbackParams p) s1 e2 Hm Hreq2) as (st2 & _ & Ea2).
  destruct (fetchEarthquakes_realtime w (fallbackParams p) s1 (fallbackParams_realtime p))
    as (r & s2 & Ed & ->).
  rewrite Ed in Ea2. cbn [timeRange fallbackParams] in Ea2.
  destruct (catch_block "week" e2) as [warning [e'|]] eqn:Ec; [|discriminate].
  exists warning, e'. injection Ea2 as -> ->. eauto.
Qed.

(** The query service answers 503 and the week feed cannot be reached. *)
Lemma fallback_failure_surfaces_fallback_error_witness :
  exists warning e' st',
    catch_block "week" (TypeError "Failed to fetch") = (warning, Rethrow e') /\
    fetchEarthquakes world_down_then_offline historical_query empty_state =
      Some (Throw e', st').
Proof.
  apply (fallback_failure_surfaces_fallback_error world_down_then_offline
           historical_query empty_state
           (Error "Server responded with 503: Service Unavailable")
           (TypeError "Failed to fetch"));
    vm_compute; reflexivity.
Defined.

(** C8 as stated fails: the query service answers 503, the fallback to the
    week feed fails with a network error, and what the caller gets is the
    network message of the fallback, not the error of the historical
    attempt. *)
Lemma fallback_error_replaces_original :
  exists st',
    request_outcome world_down_then_offline historical_query =
      Throw (Error "Server responded with 503: Service Unavailable") /\
    fetchEarthquakes world_down_then_offline historical_query empty_state =
      Some (Throw (Error "Network error. Please check your internet connection and try again."), st') /\
    fallbacks (console st') = 1%nat /\
    Error "Network error. Please check your internet connection and try again." <>
      Error "Server responded with 503: Service Unavailable".
Proof.
  eexists. split; [vm_compute; reflexivity|]. split; [vm_compute; reflexivity|].
  split; [vm_compute; reflexivity|discriminate].
Qed.

(** ** Historical payloads *)

Lemma attempt_succeeded w p st d :
  cache_miss w p st -> request_outcome w p = Normal d ->
  attempt w p st =
    Done (Normal d)
      (cacheData (now w) (quota_exceeded w) (cacheKey p) d (cacheCategory p)
         (console_write (request_line (buildUrl (now w) p)) st)).
Proof.
  intros Hmiss Hreq. unfold attempt. rewrite Hmiss.
  unfold request_outcome in Hreq.
  rewrite (try_block_outcome w p _ _ st) in Hreq.
  unfold try_block in *.
  destruct (fetch w _) as [e|r]; [discriminate|].
  destruct (negb (Response.ok r)); [discriminate|].
  destruct (Response.json r) as [d0|e]; [|discriminate].
  destruct (normalize _ _ d0) as [d'|e]; [|discriminate].
  cbn in Hreq. injection Hreq as ->. reflexivity.
Qed.

(** C3, as the code has it: the body of a successful historical response is
    returned and cached as it arrived.  No record is dropped, and
    [metadata.count] is the count upstream supplied: it is not recomputed. *)
Theorem historical_pass_through w p st r d :
  timeRange p = "custom" ->
  cache_miss w p st ->
  fetch w (buildUrl (now w) p) = Responds r ->
  Response.ok r = true ->
  Response.json r = Normal d ->
  normalize (timeRange p) (minMagnitude p) d = Normal d /\
  exists st',
    fetchEarthquakes w p st = Some (Normal d, st') /\
    (quota_exceeded w = false ->
     localStorage st' !! cacheKey p = Some (mkItem d (now w))).
Proof.
  intros Hcustom Hmiss Hfetch Hok Hjson.
  assert (Hn : normalize (timeRange p) (minMagnitude p) d = Normal d)
    by (unfold normalize; rewrite Hcustom; reflexivity).
  split; [exact Hn|].
  assert (Hreq : request_outcome w p = Normal d).
  { unfold request_outcome, try_block. rewrite Hfetch, Hok, Hjson, Hn. reflexivity. }
  eexists. rewrite fetchEarthquakes_unfold, (attempt_succeeded w p st d Hmiss Hreq).
  split; [reflexivity|]. intros Hq. unfold cacheData. rewrite Hq. cbn.
  apply lookup_insert_eq.
Qed.

(** A historical body that says 5 and holds one record comes back as it is. *)
Lemma historical_pass_through_witness :
  normalize "custom" 2 (mkData (Some (sample_metadata 5)) (Some [tehran])) =
    Normal (mkData (Some (sample_metadata 5)) (Some [tehran])) /\
  exists st',
    fetchEarthquakes world_miscounted historical_query empty_state =
      Some (Normal (mkData (Some (sample_metadata 5)) (Some [tehran])), st') /\
    (quota_exceeded world_miscounted = false ->
     localStorage st' !! cacheKey historical_query =
       Some (mkItem (mkData (Some (sample_metadata 5)) (Some [tehran])) (now world_miscounted))).
Proof.
  apply (historical_pass_through world_miscounted historical_query empty_state
           (ok_response (mkData (Some (sample_metadata 5)) (Some [tehran]))));
    vm_compute; reflexivity.
Defined.

(** C3 as stated fails: upstream says 5 and sends one record; the historical
    call succeeds and returns that body with the count still 5. *)
Lemma historical_count_is_not_recomputed :
  exists st' md fs,
    fetchEarthquakes world_miscounted historical_query empty_state =
      Some (Normal (mkData (Some md) (Some fs)), st') /\
    count md = 5 /\ Z.of_nat (length fs) = 1 /\
    count md <> Z.of_nat (length fs).
Proof.
  eexists _, _, _. split; [vm_compute; reflexivity|].
  split; [reflexivity|]. split; [reflexivity|]. discriminate.
Qed.

(** ** Malformed records *)

Lemma filter_callback_readable minMagnitude f :
  readable f -> exists keep, filter_callback minMagnitude f = Normal keep.
Proof.
  intros [[cs Hg] [p Hp]]. unfold filter_callback. rewrite Hg, Hp. cbn.
  match goal with |- context [if ?b then _ else _] => destruct b end; eauto.
Qed.

Lemma filter_callback_lacks_position minMagnitude f keep :
  lacks_position f -> filter_callback minMagnitude f = Normal keep -> keep = false.
Proof.
  intros (cs & Hg & Hcs). unfold filter_callback. rewrite Hg. cbn [coordinates].
  unfold js_ge, js_le, IRAN_BOUNDS_at.
  destruct cs as [|[| |lon] [|[| |lat] rest]]; cbn;
    try (intros [= <-]; reflexivity);
    try (destruct (Qle_bool 44 lon && Qle_bool lon 63); cbn; intros [= <-]; reflexivity).
  exfalso. exact (Hcs lon lat rest eq_refl).
Qed.

Lemma filter_callback_lacks_magnitude minMagnitude f keep :
  lacks_magnitude f -> filter_callback minMagnitude f = Normal keep -> keep = false.
Proof.
  intros (p & Hp & Hm). unfold filter_callback. rewrite Hp.
  destruct (geometry f) as [[[cs|]]|]; try discriminate.
  cbn [coordinates]. cbv zeta.
  match goal with |- context [if ?b then _ else _] => destruct b end;
    [|intros [= <-]; reflexivity].
  rewrite Hm. cbn. intros [= <-]. reflexivity.
Qed.

Lemma filter_callback_lacks_coordinates minMagnitude f :
  lacks_coordinates f -> exists e, filter_callback minMagnitude f = Throw e.
Proof.
  unfold filter_callback. intros [->| ->]; cbn; eauto.
Qed.

(** C7, as the code has it.  In a real-time payload whose records all have a
    coordinates array and a properties object, a record without a longitude
    or latitude number, or without a [mag] key, is dropped, and the
    well-formed records are filtered as usual; a record with no coordinates
    array at all makes the normalization throw, and the whole batch is lost.
    A historical payload is not examined: every record stays. *)
Theorem malformed_records timeRange minMagnitude md fs :
  timeRange <> "custom" ->
  (Forall readable fs ->
   exists kept,
     normalize timeRange minMagnitude (mkData (Some md) (Some fs)) =
       Normal (mkData (Some (set_count md (Z.of_nat (length kept)))) (Some kept)) /\
     (forall f, In f kept -> In f fs /\ ~ lacks_position f /\ ~ lacks_magnitude f) /\
     (forall f, well_formed f ->
        (In f kept <-> In f fs /\ within_box_and_magnitude minMagnitude f))) /\
  (Exists lacks_coordinates fs ->
   exists e, normalize timeRange minMagnitude (mkData (Some md) (Some fs)) = Throw e) /\
  normalize "custom" minMagnitude (mkData (Some md) (Some fs)) =
    Normal (mkData (Some md) (Some fs)).
Proof.
  intros Hrt. apply String.eqb_neq in Hrt.
  split; [|split; [|reflexivity]].
  - intros Hread.
    set (keepf := fun f => match filter_callback minMagnitude f with
                           | Normal b => b
                           | Throw _ => false
                           end).
    exists (List.filter keepf fs). unfold normalize. rewrite Hrt. cbn.
    rewrite (array_filter_total _ keepf).
    + split; [reflexivity|]. split.
      * intros f Hin. apply filter_In in Hin as [Hin Hk]. split; [exact Hin|].
        unfold keepf in Hk.
        destruct (filter_callback minMagnitude f) as [b|] eqn:E; [|discriminate].
        subst b. split; intros Hbad.
        -- pose proof (filter_callback_lacks_position _ _ _ Hbad E). discriminate.
        -- pose proof (filter_callback_lacks_magnitude _ _ _ Hbad E). discriminate.
      * intros f Hwf. rewrite filter_In. unfold keepf.
        rewrite (filter_callback_well_formed _ _ Hwf), within_box_and_magnitudeb_spec.
        tauto.
    + eapply Forall_impl; [exact Hread|]. intros f Hf. unfold keepf.
      destruct (filter_callback_readable minMagnitude f Hf) as [b ->]. reflexivity.
  - intros Hex. unfold normalize. rewrite Hrt. cbn.
    destruct (array_filter_throws (filter_callback minMagnitude) fs) as [e ->]; [|eauto].
    eapply Exists_impl; [exact Hex|]. intros f. apply filter_callback_lacks_coordinates.
Qed.

(** A day feed whose first record has no [mag] key. *)
Lemma malformed_records_witness :
  (exists kept,
     normalize "day" 2 (mkData (Some (sample_metadata 3)) (Some [no_magnitude; tehran; tokyo])) =
       Normal (mkData (Some (set_count (sample_metadata 3) (Z.of_nat (length kept)))) (Some kept)) /\
     (forall f, In f kept ->
        In f [no_magnitude; tehran; tokyo] /\ ~ lacks_position f /\ ~ lacks_magnitude f) /\
     (forall f, well_formed f ->
        (In f kept <-> In f [no_magnitude; tehran; tokyo] /\ within_box_and_magnitude 2 f))).
Proof.
  apply (malformed_records "day" 2 (sample_metadata 3) [no_magnitude; tehran; tokyo]).
  - discriminate.
  - repeat constructor; eexists; reflexivity.
Defined.

(** C7 as stated fails: one record of a day feed has no geometry; the good
    record next to it is not kept, the normalization throws and the whole
    call fails. *)
Lemma one_malformed_record_fails_the_batch :
  normalize "day" 2 (mkData (Some (sample_metadata 2)) (Some [no_geometry; tehran])) =
    Throw (TypeError "Cannot read properties of undefined (reading 'coordinates')") /\
  well_formed tehran /\ within_box_and_magnitude 2 tehran /\
  exists st',
    fetchEarthquakes world_one_malformed day_query empty_state =
      Some (Throw (Error "Failed to fetch earthquake data: Cannot read properties of undefined (reading 'coordinates')"), st').
Proof.
  split; [reflexivity|]. split; [eexists; reflexivity|].
  split; [apply within_box_and_magnitudeb_spec; reflexivity|].
  eexists. vm_compute. reflexivity.
Qed.

(** ** What the fallback leaves in the cache *)

Lemma append_String c s t : String c s +:+ t = String c (s +:+ t).
Proof. reflexivity. Qed.

Lemma cacheKey_fallback p :
  cacheKey (fallbackParams p) =
    "earthquake_data_week_" +:+ Number_toString (minMagnitude p) +:+ "___iran".
Proof. unfold cacheKey. cbn [timeRange minMagnitude startDate endDate fallbackParams DateField_or_empty].
  rewrite !append_String. reflexivity. Qed.

Lemma cacheKey_custom_not_week p :
  timeRange p = "custom" -> cacheKey p <> cacheKey (fallbackParams p).
Proof.
  intros Hcustom. unfold cacheKey. rewrite Hcustom.
  cbn [timeRange fallbackParams]. rewrite !append_String. discriminate.
Qed.

(** An entry that is absent or expired stays so while the entry is left
    alone and the clock does not go back. *)
Lemma getCachedData_miss_later now1 now2 store1 store2 key category :
  store2 !! key = store1 !! key -> now1 <= now2 ->
  getCachedData now1 store1 key category = None ->
  getCachedData now2 store2 key category = None.
Proof.
  unfold getCachedData. intros -> Hle.
  destruct (store1 !! key) as [item|]; [|reflexivity].
  destruct (cacheDuration category) as [duration|]; [|reflexivity].
  destruct (now1 - timestamp item <? duration) eqn:E1; [discriminate|].
  intros _. apply Z.ltb_ge in E1.
  destruct (now2 - timestamp item <? duration) eqn:E2; [|reflexivity].
  apply Z.ltb_lt in E2. lia.
Qed.

(** One pass writes to the store under the key of its own query only. *)
Lemma attempt_store_frame w p st k :
  k <> cacheKey p ->
  localStorage (state_after (attempt w p st)) !! k = localStorage st !! k.
Proof.
  intros Hk. unfold attempt.
  destruct (getCachedData _ _ _ _); [reflexivity|].
  destruct (try_block w p (buildUrl (now w) p) st) as [[d|e] st1] eqn:Et.
  - unfold try_block in Et.
    destruct (fetch w _) as [e|r]; [discriminate|].
    destruct (negb (Response.ok r)); [discriminate|].
    destruct (Response.json r) as [d0|e]; [|discriminate].
    destruct (normalize _ _ d0) as [d'|e]; [|discriminate].
    injection Et as _ <-. cbn. unfold cacheData.
    destruct (quota_exceeded w); cbn; [reflexivity|].
    apply lookup_insert_ne. congruence.
  - apply try_block_throw_store in Et.
    destruct (catch_block _ e) as [[text|] [e'|]]; cbn; rewrite Et; reflexivity.
Qed.

(** A pass that misses the cache prints its request line first. *)
Lemma attempt_miss_console w p st :
  cache_miss w p st ->
  exists lines,
    console (state_after (attempt w p st)) =
      (console st ++ request_line (buildUrl (now w) p) :: lines)%list.
Proof.
  intros Hmiss. unfold attempt. rewrite Hmiss. unfold try_block.
  destruct (fetch w _) as [e|r]; [|destruct (negb (Response.ok r));
    [|destruct (Response.json r) as [d|e];
      [destruct (normalize _ _ d) as [d'|e]; [unfold cacheData; destruct (quota_exceeded w)|]|]]].
  all: try (match goal with |- context [catch_block ?t ?e] =>
              destruct (catch_block t e) as [[text|] [e'|]] end).
  all: cbn [state_after console console_write localStorage];
    rewrite <- ?app_assoc; eexists; reflexivity.
Qed.

(** C10: when a historical load fails and falls back, the only key of the
    store the call can write is the week-feed key, whose date components are
    empty; the key of the historical query is left as it was.  When the
    fallback's request succeeds its result is stored under the week key.  A
    repeat of the historical load therefore misses the cache again and makes
    its request. *)
Theorem fallback_cached_under_week_key w p st e :
  timeRange p = "custom" ->
  cache_miss w p st ->
  request_outcome w p = Throw e ->
  fallback_eligible e = true ->
  let week := fallbackParams p in
  cacheKey week =
    "earthquake_data_week_" +:+ Number_toString (minMagnitude p) +:+ "___iran" /\
  cacheKey p <> cacheKey week /\
  exists result st',
    fetchEarthquakes w p st = Some (result, st') /\
    (forall k, k <> cacheKey week -> localStorage st' !! k = localStorage st !! k) /\
    localStorage st' !! cacheKey p = localStorage st !! cacheKey p /\
    (forall d,
       cache_miss w week st -> request_outcome w week = Normal d ->
       result = Normal d /\
       (quota_exceeded w = false ->
        localStorage st' !! cacheKey week = Some (mkItem d (now w)))) /\
    (forall w2, now w <= now w2 ->
       cache_miss w2 p st' /\
       exists result2 st2 lines,
         fetchEarthquakes w2 p st' = Some (result2, st2) /\
         console st2 =
           (console st' ++ request_line (buildUrl (now w2) p) :: lines)%list).
Proof.
  intros Hcustom Hmiss Hreq Hel week. subst week.
  split; [apply cacheKey_fallback|].
  pose proof (cacheKey_custom_not_week p Hcustom) as Hne.
  split; [exact Hne|].
  destruct (attempt_failed w p st e Hmiss Hreq) as (st1 & Hs1 & Ea).
  rewrite Hcustom, (catch_block_eligible _ Hel) in Ea.
  destruct (fetchEarthquakes_falls_back _ _ _ _ _ Ea) as [_ Hfb].
  set (s1 := console_write _ st1) in *.
  assert (Hs : localStorage s1 = localStorage st) by exact Hs1.
  destruct (fetchEarthquakes_realtime w (fallbackParams p) s1 (fallbackParams_realtime p))
    as (r & s2 & Ed & Hweek).
  assert (Hframe : forall k, k <> cacheKey (fallbackParams p) ->
            localStorage s2 !! k = localStorage st !! k).
  { intros k Hk. pose proof (attempt_store_frame w (fallbackParams p) s1 k Hk) as F.
    rewrite Ed in F. etrans; [exact F|]. rewrite Hs. reflexivity. }
  exists r, s2. rewrite Hfb, Hweek.
  split; [reflexivity|]. split; [exact Hframe|].
  split; [apply Hframe; exact Hne|]. split.
  - intros d Hmw Hrw.
    assert (Hm1 : cache_miss w (fallbackParams p) s1) by (apply (cache_miss_store w _ st); assumption).
    rewrite (attempt_succeeded w (fallbackParams p) s1 d Hm1 Hrw) in Ed.
    injection Ed as <- <-. split; [reflexivity|].
    intros Hq. unfold cacheData. rewrite Hq. cbn. apply lookup_insert_eq.
  - intros w2 Hle.
    assert (Hm2 : cache_miss w2 p s2).
    { unfold cache_miss in *.
      apply (getCachedData_miss_later (now w) (now w2) (localStorage st));
        [apply Hframe; exact Hne|exact Hle|exact Hmiss]. }
    split; [exact Hm2|].
    destruct (attempt_miss_console w2 p s2 Hm2) as (l1 & Hc1).
    rewrite fetchEarthquakes_unfold.
    destruct (attempt w2 p s2) as [r2 s3|p' s3] eqn:E2.
    + exists r2, s3, l1. split; [reflexivity|exact Hc1].
    + destruct (attempt_calls_itself _ _ _ _ _ E2) as (_ & -> & _).
      destruct (attempt_realtime_done w2 (fallbackParams p) s3 (fallbackParams_realtime p))
        as (r3 & s4 & E3).
      destruct (attempt_console w2 (fallbackParams p) s3) as (l2 & Hc2 & _).
      rewrite E3 in *. cbn in Hc1, Hc2.
      exists r3, s4, (l1 ++ l2)%list. split; [reflexivity|].
      rewrite Hc2, Hc1, <- app_assoc. reflexivity.
Qed.

(** The query service answers 503 and the week feed answers: the result is
    stored under the week key, the historical key stays empty, and the same
    historical load misses the cache again. *)
Lemma fallback_cached_under_week_key_witness :
  cacheKey (fallbackParams historical_query) = "earthquake_data_week_2___iran" /\
  cacheKey historical_query <> cacheKey (fallbackParams historical_query) /\
  exists result st',
    fetchEarthquakes world_query_down historical_query empty_state = Some (result, st') /\
    localStorage st' !! cacheKey historical_query = None /\
    result = Normal (mkData (Some (sample_metadata 1)) (Some [tehran])) /\
    localStorage st' !! "earthquake_data_week_2___iran" =
      Some (mkItem (mkData (Some (sample_metadata 1)) (Some [tehran])) sample_now) /\
    cache_miss world_query_down historical_query st'.
Proof.
  assert (Hcustom : timeRange historical_query = "custom") by reflexivity.
  assert (Hmiss : cache_miss world_query_down historical_query empty_state)
    by (vm_compute; reflexivity).
  assert (Hreq : request_outcome world_query_down historical_query =
                 Throw (Error "Server responded with 503: Service Unavailable"))
    by (vm_compute; reflexivity).
  assert (Hel : fallback_eligible (Error "Server responded with 503: Service Unavailable") = true)
    by (vm_compute; reflexivity).
  destruct (fallback_cached_under_week_key world_query_down historical_query empty_state
              _ Hcustom Hmiss Hreq Hel)
    as (Hkey & Hne & result & st' & Hcall & _ & Hsame & Hstored & Hrepeat).
  split; [exact Hkey|]. split; [exact Hne|].
  exists result, st'. split; [exact Hcall|]. split; [exact Hsame|].
  assert (Hmw : cache_miss world_query_down (fallbackParams historical_query) empty_state)
    by (vm_compute; reflexivity).
  assert (Hrw : request_outcome world_query_down (fallbackParams historical_query) =
                Normal (mkData (Some (sample_metadata 1)) (Some [tehran])))
    by (vm_compute; reflexivity).
  destruct (Hstored _ Hmw Hrw) as [Hr Hs].
  split; [exact Hr|]. split; [apply Hs; reflexivity|].
  apply (Hrepeat world_query_down). reflexivity.
Defined.

(** ** The cache *)

Lemma cacheDuration_table :
  cacheDuration "hour" = Some (5 * 60 * 1000) /\
  cacheDuration "day" = Some (15 * 60 * 1000) /\
  cacheDuration "week" = Some (60 * 60 * 1000) /\
  cacheDuration "historical" = Some (24 * 60 * 60 * 1000).
Proof. repeat split. Qed.

Lemma own_property_None table key :
  own_property table key = None <-> ~ In key (map fst table).
Proof.
  induction table as [|[k v] rest IH]; cbn.
  - tauto.
  - destruct (String.eqb_spec k key) as [->|Hne].
    + split; [discriminate|]. intros H. exfalso. apply H. auto.
    + rewrite IH. split; [intros H [?|?]; [congruence|contradiction]|tauto].
Qed.

(** A category that is neither in the table nor the name of something
    inherited from [Object.prototype] gets the duration of [day]. *)
Lemma cacheDuration_default category :
  ~ In category ["hour"; "day"; "week"; "historical"] ->
  ~ In category Object_prototype_keys ->
  cacheDuration category = Some (15 * 60 * 1000).
Proof.
  intros Htable Hproto. unfold cacheDuration, CACHE_DURATIONS_get.
  assert (E : own_property CACHE_DURATIONS category = None)
    by (apply own_property_None; exact Htable).
  rewrite E.
  destruct (existsb (String.eqb category) Object_prototype_keys) eqn:Ex; [|reflexivity].
  apply existsb_exists in Ex as (k & Hin & Hk). apply String.eqb_eq in Hk. subst k.
  contradiction.
Qed.

(** An entry is read exactly while its age is below the duration of the
    category the reader names. *)
Lemma getCachedData_valid_iff now store key category item duration :
  store !! key = Some item ->
  cacheDuration category = Some duration ->
  (now - timestamp item < duration ->
   getCachedData now store key category = Some (data item)) /\
  (duration <= now - timestamp item ->
   getCachedData now store key category = None).
Proof.
  intros Hitem Hdur. unfold getCachedData. rewrite Hitem, Hdur.
  split; intros H.
  - apply Z.ltb_lt in H. rewrite H. reflexivity.
  - apply Z.ltb_ge in H. rewrite H. reflexivity.
Qed.

(** The boundary of the hour category: an entry stored at [T] is read 299
    seconds later and not read 301 seconds later. *)
Lemma hour_entry_boundary T key d st :
  let st' := cacheData T false key d "hour" st in
  getCachedData (T + 299 * 1000) (localStorage st') key "hour" = Some d /\
  getCachedData (T + 301 * 1000) (localStorage st') key "hour" = None.
Proof.
  cbn zeta. unfold getCachedData, cacheData. cbn [localStorage].
  rewrite lookup_insert_eq. cbn [timestamp data].
  replace (cacheDuration "hour") with (Some 300000) by reflexivity.
  replace (T + 299 * 1000 - T <? 300000) with true by (symmetry; apply Z.ltb_lt; lia).
  replace (T + 301 * 1000 - T <? 300000) with false by (symmetry; apply Z.ltb_ge; lia).
  split; reflexivity.
Qed.

(** The names an object literal inherits are the one exception to the
    default.  The lookup [CACHE_DURATIONS["constructor"]] finds the inherited
    function, which is truthy, so the fallback to [day] is not taken and the
    comparison of the age with it is false.  No caller passes such a name:
    the time range is one of hour, day and week, or "custom", which becomes
    "historical". *)
Lemma inherited_category_never_valid T key d st :
  let st' := cacheData T false key d "constructor" st in
  ~ In "constructor" ["hour"; "day"; "week"; "historical"] /\
  cacheDuration "day" = Some (15 * 60 * 1000) /\
  cacheDuration "constructor" = None /\
  localStorage st' !! key = Some (mkItem d T) /\
  getCachedData (T + 1000) (localStorage st') key "constructor" = None /\
  getCachedData (T + 1000) (localStorage st') key "day" = Some d.
Proof.
  cbn zeta. split.
  - intros [H|[H|[H|[H|[]]]]]; discriminate.
  - split; [reflexivity|]. split; [reflexivity|].
    unfold getCachedData, cacheData. cbn [localStorage].
    rewrite lookup_insert_eq. cbn [timestamp data].
    split; [reflexivity|].
    replace (cacheDuration "constructor") with (@None Z) by reflexivity.
    replace (cacheDuration "day") with (Some 900000) by reflexivity.
    replace (T + 1000 - T <? 900000) with true by (symmetry; apply Z.ltb_lt; lia).
    split; reflexivity.
Qed.

(** C4: an entry stored at time [T] is returned exactly when [now - T] is
    strictly less than the duration of the category named by the reader: 5
    minutes for hour, 15 for day, 60 for week, 24 hours for historical, and
    the day duration for any category that is not in the table (the names
    inherited from [Object.prototype], which no caller passes, are set
    apart above).  An hour entry is readable at [T + 299 s] and not readable
    at [T + 301 s]. *)
Theorem cache_entry_validity T key d category st now' :
  ~ In category Object_prototype_keys ->
  let duration :=
    if String.eqb category "hour" then 5 * 60 * 1000
    else if String.eqb category "day" then 15 * 60 * 1000
    else if String.eqb category "week" then 60 * 60 * 1000
    else if String.eqb category "historical" then 24 * 60 * 60 * 1000
    else 15 * 60 * 1000 in
  let store := localStorage (cacheData T false key d category st) in
  (getCachedData now' store key category = Some d <-> now' - T < duration) /\
  (getCachedData now' store key category = None <-> duration <= now' - T) /\
  getCachedData (T + 299 * 1000)
    (localStorage (cacheData T false key d "hour" st)) key "hour" = Some d /\
  getCachedData (T + 301 * 1000)
    (localStorage (cacheData T false key d "hour" st)) key "hour" = None.
Proof.
  intros Hout duration store.
  assert (Hitem : store !! key = Some (mkItem d T)) by apply lookup_insert_eq.
  assert (Hdur : cacheDuration category = Some duration).
  { subst duration.
    destruct (in_dec string_dec category ["hour"; "day"; "week"; "historical"])
      as [Hin|Hnot].
    - destruct Hin as [<-|[<-|[<-|[<-|[]]]]]; reflexivity.
    - rewrite (cacheDuration_default category Hnot Hout).
      assert (Hh : String.eqb category "hour" = false)
        by (apply String.eqb_neq; intros ->; apply Hnot; cbn; auto).
      assert (Hd : String.eqb category "day" = false)
        by (apply String.eqb_neq; intros ->; apply Hnot; cbn; auto).
      assert (Hw : String.eqb category "week" = false)
        by (apply String.eqb_neq; intros ->; apply Hnot; cbn; auto).
      assert (Hi : String.eqb category "historical" = false)
        by (apply String.eqb_neq; intros ->; apply Hnot; cbn; auto).
      rewrite Hh, Hd, Hw, Hi. reflexivity. }
  destruct (getCachedData_valid_iff now' store key category _ duration Hitem Hdur)
    as [Hvalid Hexpired]. cbn [data timestamp] in Hvalid, Hexpired.
  split; [|split; [|exact (hour_entry_boundary T key d st)]].
  - split; [|exact Hvalid]. intros Hsome.
    destruct (Z.lt_ge_cases (now' - T) duration) as [Hlt|Hge]; [exact Hlt|].
    rewrite (Hexpired Hge) in Hsome. discriminate.
  - split; [|exact Hexpired]. intros Hnone.
    destruct (Z.lt_ge_cases (now' - T) duration) as [Hlt|Hge]; [|exact Hge].
    rewrite (Hvalid Hlt) in Hnone. discriminate.
Qed.

(** An entry stored under "week" at [sample_now] is read 59 minutes later
    and not an hour later; an entry stored under a category that is not in
    the table is read for 15 minutes. *)
Lemma cache_entry_validity_witness :
  getCachedData (sample_now + 59 * 60 * 1000)
    (localStorage (cacheData sample_now false "k" (mkData None None) "week" empty_state))
    "k" "week" = Some (mkData None None) /\
  getCachedData (sample_now + 60 * 60 * 1000)
    (localStorage (cacheData sample_now false "k" (mkData None None) "week" empty_state))
    "k" "week" = None /\
  getCachedData (sample_now + 14 * 60 * 1000)
    (localStorage (cacheData sample_now false "k" (mkData None None) "month" empty_state))
    "k" "month" = Some (mkData None None).
Proof.
  assert (Hweek : ~ In "week" Object_prototype_keys)
    by (intros H; repeat (destruct H as [H|H]; [discriminate|]); exact H).
  assert (Hmonth : ~ In "month" Object_prototype_keys)
    by (intros H; repeat (destruct H as [H|H]; [discriminate|]); exact H).
  destruct (cache_entry_validity sample_now "k" (mkData None None) "week" empty_state
              (sample_now + 59 * 60 * 1000) Hweek) as (Hvalid & _).
  destruct (cache_entry_validity sample_now "k" (mkData None None) "week" empty_state
              (sample_now + 60 * 60 * 1000) Hweek) as (_ & Hexpired & _).
  destruct (cache_entry_validity sample_now "k" (mkData None None) "month" empty_state
              (sample_now + 14 * 60 * 1000) Hmonth) as (Hdefault & _).
  split; [apply Hvalid; vm_compute; reflexivity|].
  split; [apply Hexpired; vm_compute; congruence|].
  apply Hdefault; vm_compute; reflexivity.
Defined.

(** ** The cache key *)

Lemma Number_toString_Qeq x y : (x == y)%Q -> Number_toString x = Number_toString y.
Proof. intros H. unfold Number_toString. rewrite (Qred_complete x y H). reflexivity. Qed.

Lemma slider_tenths_spec k : 0 <= k <= 90 -> In k slider_tenths.
Proof.
  intros Hk. unfold slider_tenths. apply in_map_iff. exists (Z.to_nat k).
  split; [lia|]. apply in_seq. lia.
Qed.

Lemma slider_texts_distinct :
  forallb (fun k1 =>
    forallb (fun k2 =>
      (k1 =? k2) ||
      negb (String.eqb (Number_toString (k1 # 10)) (Number_toString (k2 # 10))))
    slider_tenths) slider_tenths = true.
Proof. vm_compute. reflexivity. Qed.

Lemma slider_texts_plain :
  forallb (fun k => negb (has_underscore (Number_toString (k # 10)))) slider_tenths = true.
Proof. vm_compute. reflexivity. Qed.

Lemma slider_position_text_inj m1 m2 :
  slider_position m1 -> slider_position m2 ->
  Number_toString m1 = Number_toString m2 -> (m1 == m2)%Q.
Proof.
  intros (k1 & Hk1 & E1) (k2 & Hk2 & E2).
  rewrite (Number_toString_Qeq _ _ E1), (Number_toString_Qeq _ _ E2). intros Ht.
  pose proof slider_texts_distinct as H.
  rewrite forallb_forall in H. specialize (H k1 (slider_tenths_spec k1 Hk1)).
  rewrite forallb_forall in H. specialize (H k2 (slider_tenths_spec k2 Hk2)).
  rewrite Ht, String.eqb_refl in H. cbn in H. rewrite orb_false_r in H.
  apply Z.eqb_eq in H. subst k2. rewrite E1, E2. reflexivity.
Qed.

Lemma slider_position_text_plain m :
  slider_position m -> has_underscore (Number_toString m) = false.
Proof.
  intros (k & Hk & E). rewrite (Number_toString_Qeq _ _ E).
  pose proof slider_texts_plain as H. rewrite forallb_forall in H.
  specialize (H k (slider_tenths_spec k Hk)). apply negb_true_iff in H. exact H.
Qed.

Lemma append_inv_head s a b : s +:+ a = s +:+ b -> a = b.
Proof. induction s as [|c s IH]; cbn; [auto|]. intros [= H]. auto. Qed.

(** Two texts without an underscore that are each followed by one are equal
    as soon as the whole strings are. *)
Lemma split_at_underscore a b x y :
  has_underscore a = false -> has_underscore b = false ->
  a +:+ "_" +:+ x = b +:+ "_" +:+ y -> a = b.
Proof.
  revert b. induction a as [|c a IH]; intros [|c' b]; cbn.
  - reflexivity.
  - intros _ Hb [= <- _]. cbn in Hb. discriminate.
  - intros Ha _ [= -> _]. cbn in Ha. discriminate.
  - intros Ha Hb [= <- H]. apply orb_false_iff in Ha as [_ Ha].
    apply orb_false_iff in Hb as [_ Hb]. f_equal. exact (IH b Ha Hb H).
Qed.

Lemma cacheKey_magnitude_inj p1 p2 :
  timeRange p1 = timeRange p2 ->
  slider_position (minMagnitude p1) -> slider_position (minMagnitude p2) ->
  cacheKey p1 = cacheKey p2 -> (minMagnitude p1 == minMagnitude p2)%Q.
Proof.
  intros Htr H1 H2. unfold cacheKey. rewrite Htr. intros H.
  do 3 apply append_inv_head in H.
  apply slider_position_text_inj; [exact H1|exact H2|].
  eapply split_at_underscore; [| |exact H]; apply slider_position_text_plain; assumption.
Qed.

(** C9, as the code has it.  The key is made of the time range passed to
    [fetchEarthquakes], the minimum magnitude and both dates.  In historical
    mode the filters' own time range does not matter; in real-time mode the
    date range the component holds still goes into the key.  Two filters that
    agree on mode, time range, magnitude and dates get the same key, and two
    filters of the same mode and time range whose slider magnitudes differ
    get different keys, whatever their dates. *)
Theorem cache_key_of_filters f1 f2 :
  isHistorical f1 = isHistorical f2 ->
  (isHistorical f1 = false -> filters_timeRange f1 = filters_timeRange f2) ->
  ((filters_minMagnitude f1 == filters_minMagnitude f2)%Q ->
   dateRange f1 = dateRange f2 ->
   cacheKey (loadParams f1) = cacheKey (loadParams f2)) /\
  (slider_position (filters_minMagnitude f1) ->
   slider_position (filters_minMagnitude f2) ->
   ~ (filters_minMagnitude f1 == filters_minMagnitude f2)%Q ->
   cacheKey (loadParams f1) <> cacheKey (loadParams f2)).
Proof.
  intros Hmode Htr.
  assert (Etr : timeRange (loadParams f1) = timeRange (loadParams f2)).
  { cbn. rewrite <- Hmode. destruct (isHistorical f1); [reflexivity|auto]. }
  split.
  - intros Hm Hd. unfold cacheKey. rewrite Etr. cbn [minMagnitude startDate endDate loadParams].
    rewrite (Number_toString_Qeq _ _ Hm), Hd. reflexivity.
  - intros H1 H2 Hne Hkey. apply Hne.
    exact (cacheKey_magnitude_inj (loadParams f1) (loadParams f2) Etr H1 H2 Hkey).
Qed.

(** Two historical filters with the same dates and magnitude 2 and 2.0 share
    a key although their time ranges differ; at 2 and 2.5 the keys differ. *)
Lemma cache_key_of_filters_witness :
  (cacheKey (loadParams (mkFilters "hour" 2 true (mkRange (DDate (mkDate 2025 8 1)) DEmpty))) =
   cacheKey (loadParams (mkFilters "week" (20 # 10) true (mkRange (DDate (mkDate 2025 8 1)) DEmpty)))) /\
  (cacheKey (loadParams (mkFilters "hour" 2 true (mkRange (DDate (mkDate 2025 8 1)) DEmpty))) <>
   cacheKey (loadParams (mkFilters "week" (25 # 10) true (mkRange (DDate (mkDate 2024 1 1)) DEmpty)))).
Proof.
  split.
  - apply (cache_key_of_filters
             (mkFilters "hour" 2 true (mkRange (DDate (mkDate 2025 8 1)) DEmpty))
             (mkFilters "week" (20 # 10) true (mkRange (DDate (mkDate 2025 8 1)) DEmpty)));
      [reflexivity|discriminate|reflexivity|reflexivity].
  - apply (cache_key_of_filters
             (mkFilters "hour" 2 true (mkRange (DDate (mkDate 2025 8 1)) DEmpty))
             (mkFilters "week" (25 # 10) true (mkRange (DDate (mkDate 2024 1 1)) DEmpty)));
      [reflexivity|discriminate| | |].
    + exists 20. split; [lia|reflexivity].
    + exists 25. split; [lia|reflexivity].
    + discriminate.
Defined.

(** C9 as stated fails: two real-time filters for the day feed at magnitude
    2 differ only in the start of the date range, a field that has no
    meaning in real-time mode, and get different keys. *)
Lemma realtime_key_depends_on_dates :
  isHistorical (realtime_filters (mkDate 2025 8 1)) = false /\
  isHistorical (realtime_filters (mkDate 2025 8 2)) = false /\
  filters_timeRange (realtime_filters (mkDate 2025 8 1)) =
    filters_timeRange (realtime_filters (mkDate 2025 8 2)) /\
  filters_minMagnitude (realtime_filters (mkDate 2025 8 1)) =
    filters_minMagnitude (realtime_filters (mkDate 2025 8 2)) /\
  cacheKey (loadParams (realtime_filters (mkDate 2025 8 1))) =
    "earthquake_data_day_2_2025-08-01_2025-11-03_iran" /\
  cacheKey (loadParams (realtime_filters (mkDate 2025 8 2))) =
    "earthquake_data_day_2_2025-08-02_2025-11-03_iran" /\
  cacheKey (loadParams (realtime_filters (mkDate 2025 8 1))) <>
    cacheKey (loadParams (realtime_filters (mkDate 2025 8 2))).
Proof. repeat split; try reflexivity. vm_compute. discriminate. Qed.

(** ** The calendar *)

Lemma is_leap_spec y :
  is_leap y = true <-> y mod 4 = 0 /\ (y mod 100 <> 0 \/ y mod 400 = 0).
Proof.
  unfold is_leap. rewrite andb_true_iff, orb_true_iff, negb_true_iff.
  rewrite !Z.eqb_eq, Z.eqb_neq. tauto.
Qed.

Lemma days_before_year_next y :
  days_before_year (y + 1) = days_before_year y + (if is_leap y then 366 else 365).
Proof.
  unfold days_before_year. replace (y + 1 - 1) with y by lia.
  destruct (is_leap y) eqn:E.
  - apply is_leap_spec in E. Z.div_mod_to_equations. lia.
  - assert (H : ~ (y mod 4 = 0 /\ (y mod 100 <> 0 \/ y mod 400 = 0)))
      by (rewrite <- is_leap_spec, E; discriminate).
    Z.div_mod_to_equations. lia.
Qed.

Lemma days_before_year_mono y1 y2 :
  y1 <= y2 -> days_before_year y1 <= days_before_year y2.
Proof. unfold days_before_year. intros H. Z.div_mod_to_equations. lia. Qed.

Lemma month_cases m : 1 <= m <= 12 ->
  m = 1 \/ m = 2 \/ m = 3 \/ m = 4 \/ m = 5 \/ m = 6 \/
  m = 7 \/ m = 8 \/ m = 9 \/ m = 10 \/ m = 11 \/ m = 12.
Proof. lia. Qed.

Ltac each_month m H :=
  destruct (month_cases m H) as
    [->|[->|[->|[->|[->|[->|[->|[->|[->|[->|[->| ->]]]]]]]]]]].

Lemma days_from_epoch_split d :
  days_from_epoch d = days_before_year (year d) + day_of_year d.
Proof. unfold days_from_epoch, day_of_year. lia. Qed.

Lemma day_of_year_bounds d :
  month_day_ok d ->
  0 <= day_of_year d < (if is_leap (year d) then 366 else 365).
Proof.
  destruct d as [y m dd]. unfold month_day_ok, day_of_year, days_in_month. cbn [year month day].
  intros [Hm Hd]. each_month m Hm; vm_compute (days_before_month _) ;
    vm_compute (2 <? _); vm_compute (_ =? _) in Hd;
    destruct (is_leap y); cbn in *; lia.
Qed.

Lemma next_day_spec d :
  month_day_ok d ->
  month_day_ok (next_day d) /\
  days_from_epoch (next_day d) = days_from_epoch d + 1 /\
  year d <= year (next_day d).
Proof.
  destruct d as [y m dd]. unfold month_day_ok, next_day. cbn [year month day].
  intros [Hm Hd].
  destruct (dd <? days_in_month y m) eqn:E.
  - apply Z.ltb_lt in E. cbn [year month day]. unfold days_from_epoch. cbn [year month day].
    split; [lia|]. split; lia.
  - apply Z.ltb_ge in E. assert (Hdd : dd = days_in_month y m) by lia. clear E Hd.
    destruct (m <? 12) eqn:E12.
    + apply Z.ltb_lt in E12. cbn [year month day].
      unfold days_from_epoch, days_in_month in *. cbn [year month day].
      each_month m Hm; try lia;
        vm_compute (days_before_month _); vm_compute (2 <? _);
        vm_compute (_ =? _); vm_compute (_ =? _) in Hdd;
        destruct (is_leap y); cbn in *; lia.
    + apply Z.ltb_ge in E12. assert (m = 12) by lia. subst m.
      cbn [year month day]. rewrite !days_from_epoch_split. cbn [year].
      rewrite days_before_year_next. unfold day_of_year, days_in_month in *.
      cbn [year month day].
      vm_compute (days_before_month _). vm_compute (2 <? _).
      vm_compute (_ =? _). vm_compute (_ =? _) in Hdd.
      rewrite andb_false_r.
      destruct (is_leap y); cbn in *; lia.
Qed.

Lemma utc_date_spec n :
  let d := Nat.iter n next_day (mkDate 1970 1 1) in
  month_day_ok d /\ days_from_epoch d = Z.of_nat n /\ 1970 <= year d.
Proof.
  induction n as [|n IH].
  - cbn. split; [unfold month_day_ok; cbn; lia|]. split; [reflexivity|lia].
  - cbn zeta in *. rewrite Nat.iter_succ.
    destruct IH as (Hok & Hdays & Hy).
    destruct (next_day_spec _ Hok) as (Hok' & Hdays' & Hy').
    split; [exact Hok'|]. split; lia.
Qed.

Lemma day_of_year_mono a b :
  month_day_ok a -> month_day_ok b -> year a = year b ->
  month a < month b \/ month a = month b /\ day a < day b ->
  day_of_year a < day_of_year b.
Proof.
  destruct a as [y m dd], b as [y' m' dd']. unfold month_day_ok, day_of_year, days_in_month.
  cbn [year month day]. intros [Hm Hd] [Hm' Hd'] <- Hlt.
  each_month m Hm; each_month m' Hm'; try lia;
    vm_compute (days_before_month _); vm_compute (2 <? _);
    vm_compute (_ =? _) in Hd; vm_compute (_ =? _) in Hd';
    destruct (is_leap y); cbn in *; lia.
Qed.

Lemma days_from_epoch_mono a b :
  month_day_ok a -> month_day_ok b -> before a b ->
  days_from_epoch a < days_from_epoch b.
Proof.
  intros Ha Hb [Hy|[Hy Hmd]]; rewrite !days_from_epoch_split.
  - pose proof (day_of_year_bounds a Ha) as Ba.
    pose proof (day_of_year_bounds b Hb) as Bb.
    pose proof (days_before_year_next (year a)) as Hn.
    pose proof (days_before_year_mono (year a + 1) (year b) ltac:(lia)).
    destruct (is_leap (year a)), (is_leap (year b)); lia.
  - rewrite Hy. pose proof (day_of_year_mono a b Ha Hb Hy Hmd). lia.
Qed.

(** ** Dates as text *)

Lemma digit_cases x : 0 <= x <= 9 ->
  x = 0 \/ x = 1 \/ x = 2 \/ x = 3 \/ x = 4 \/ x = 5 \/ x = 6 \/ x = 7 \/ x = 8 \/ x = 9.
Proof. lia. Qed.

Lemma compare_digit x y :
  0 <= x <= 9 -> 0 <= y <= 9 -> Ascii.compare (digit x) (digit y) = (x ?= y).
Proof.
  intros Hx Hy.
  destruct (digit_cases x Hx) as [->|[->|[->|[->|[->|[->|[->|[->|[->| ->]]]]]]]]];
  destruct (digit_cases y Hy) as [->|[->|[->|[->|[->|[->|[->|[->|[->| ->]]]]]]]]];
  reflexivity.
Qed.

Lemma compare_digit_first x y s t :
  0 <= x <= 9 -> 0 <= y <= 9 ->
  String.compare (String (digit x) s) (String (digit y) t) =
    match x ?= y with
    | Eq => String.compare s t
    | c => c
    end.
Proof. intros Hx Hy. cbn [String.compare]. rewrite (compare_digit x y Hx Hy). reflexivity. Qed.

Ltac compare_cases :=
  repeat match goal with
         | |- context [?a ?= ?b] => destruct (Z.compare_spec a b)
         end;
  try reflexivity; exfalso; lia.

Lemma compare_pad2 a b s t :
  0 <= a <= 99 -> 0 <= b <= 99 ->
  String.compare (pad2 a +:+ s) (pad2 b +:+ t) =
    match a ?= b with
    | Eq => String.compare s t
    | c => c
    end.
Proof.
  intros Ha Hb. unfold pad2. rewrite !append_String.
  change ("" +:+ s) with s. change ("" +:+ t) with t.
  rewrite !compare_digit_first by (Z.div_mod_to_equations; lia).
  generalize (String.compare s t). intros c.
  Z.div_mod_to_equations. compare_cases.
Qed.

Lemma compare_pad4 a b s t :
  0 <= a <= 9999 -> 0 <= b <= 9999 ->
  String.compare (pad4 a +:+ s) (pad4 b +:+ t) =
    match a ?= b with
    | Eq => String.compare s t
    | c => c
    end.
Proof.
  intros Ha Hb. unfold pad4, pad2. rewrite !append_String.
  change ("" +:+ s) with s. change ("" +:+ t) with t.
  rewrite !compare_digit_first by (Z.div_mod_to_equations; lia).
  generalize (String.compare s t). intros c.
  Z.div_mod_to_equations. compare_cases.
Qed.

Lemma days_in_month_bounds y m : 28 <= days_in_month y m <= 31.
Proof.
  unfold days_in_month. destruct (m =? 2); [destruct (is_leap y); lia|].
  destruct (_ || _); lia.
Qed.

Lemma valid_date_ok d : valid_date d -> month_day_ok d.
Proof. unfold valid_date, month_day_ok. tauto. Qed.

Lemma compare_formatDate a b :
  valid_date a -> valid_date b ->
  String.compare (formatDate a) (formatDate b) = compare_dates a b.
Proof.
  intros (Hya & Hma & Hda) (Hyb & Hmb & Hdb).
  pose proof (days_in_month_bounds (year a) (month a)).
  pose proof (days_in_month_bounds (year b) (month b)).
  unfold formatDate, compare_dates.
  rewrite compare_pad4 by assumption.
  destruct (year a ?= year b); try reflexivity.
  change (String.compare ("-" +:+ ?x) ("-" +:+ ?y)) with (String.compare x y).
  rewrite compare_pad2 by lia.
  destruct (month a ?= month b); try reflexivity.
  change (String.compare ("-" +:+ ?x) ("-" +:+ ?y)) with (String.compare x y).
  change (pad2 (day a)) with (pad2 (day a) +:+ "").
  change (pad2 (day b)) with (pad2 (day b) +:+ "").
  rewrite compare_pad2 by lia.
  destruct (day a ?= day b); reflexivity.
Qed.

Lemma compare_dates_days a b :
  month_day_ok a -> month_day_ok b ->
  compare_dates a b = (days_from_epoch a ?= days_from_epoch b).
Proof.
  intros Ha Hb. unfold compare_dates.
  destruct (Z.compare_spec (year a) (year b)) as [Hy|Hy|Hy].
  - destruct (Z.compare_spec (month a) (month b)) as [Hm|Hm|Hm].
    + destruct (Z.compare_spec (day a) (day b)) as [Hd|Hd|Hd].
      * destruct a, b. cbn in *. subst. symmetry. apply Z.compare_refl.
      * symmetry. apply Z.compare_lt_iff, days_from_epoch_mono; try assumption.
        right. auto.
      * symmetry. apply Z.compare_gt_iff, days_from_epoch_mono; try assumption.
        right. auto.
    + symmetry. apply Z.compare_lt_iff, days_from_epoch_mono; try assumption.
      right. auto.
    + symmetry. apply Z.compare_gt_iff, days_from_epoch_mono; try assumption.
      right. auto.
  - symmetry. apply Z.compare_lt_iff, days_from_epoch_mono; try assumption. left. lia.
  - symmetry. apply Z.compare_gt_iff, days_from_epoch_mono; try assumption. left. lia.
Qed.

(** On the texts of two calendar dates, [a > b] is "later in the calendar". *)
Lemma string_gt_formatDate a b :
  valid_date a -> valid_date b ->
  string_gt (formatDate a) (formatDate b) = (days_from_epoch b <? days_from_epoch a).
Proof.
  intros Ha Hb. unfold string_gt, String.ltb.
  rewrite (compare_formatDate b a Hb Ha).
  rewrite (compare_dates_days b a (valid_date_ok b Hb) (valid_date_ok a Ha)).
  unfold Z.ltb. reflexivity.
Qed.

(** The date [toISOString] prints is the day that holds the instant. *)
Lemma utc_date_valid now :
  0 <= now < 253402300800000 ->
  valid_date (utc_date now) /\ days_from_epoch (utc_date now) = now / msPerDay.
Proof.
  intros Hnow. unfold utc_date.
  destruct (utc_date_spec (Z.to_nat (now / msPerDay))) as (Hok & Hdays & Hy).
  cbn zeta in *. set (d := Nat.iter _ _ _) in *.
  assert (Hq : 0 <= now / msPerDay < 2932897)
    by (unfold msPerDay; Z.div_mod_to_equations; lia).
  rewrite Z2Nat.id in Hdays by lia.
  split; [|exact Hdays].
  destruct Hok as [Hm Hd]. split; [|split; assumption].
  split; [lia|].
  destruct (Z_le_gt_dec (year d) 9999) as [|Hbig]; [assumption|exfalso].
  pose proof (days_before_year_mono 10000 (year d) ltac:(lia)) as Hmono.
  pose proof (day_of_year_bounds d (conj Hm Hd)) as Hdoy.
  rewrite days_from_epoch_split in Hdays.
  change (days_before_year 10000) with 2932897 in Hmono. lia.
Qed.

(** [new Date(text) > now] is "the date is after today". *)
Lemma future_date_iff now d :
  0 <= now < 253402300800000 ->
  (now <? Date_getTime d) = (days_from_epoch (utc_date now) <? days_from_epoch d).
Proof.
  intros Hnow. destruct (utc_date_valid now Hnow) as [_ ->].
  unfold Date_getTime, msPerDay.
  destruct (Z.ltb_spec now (days_from_epoch d * 86400000));
    destruct (Z.ltb_spec (now / 86400000) (days_from_epoch d));
    try reflexivity; exfalso; Z.div_mod_to_equations; lia.
Qed.

(** ** The end-date clamp *)

Lemma clampEndDate_validEndDate now endDate :
  0 <= now < 253402300800000 ->
  (forall d, endDate = DDate d -> valid_date d) ->
  clampEndDate now endDate = validEndDate now endDate.
Proof.
  intros Hnow Hvalid. unfold clampEndDate, validEndDate.
  destruct endDate as [| |d]; try reflexivity.
  cbn [DateField_gt DateField_template].
  destruct (utc_date_valid now Hnow) as [Htoday _].
  rewrite (string_gt_formatDate d (utc_date now) (Hvalid d eq_refl) Htoday).
  rewrite (future_date_iff now d Hnow). reflexivity.
Qed.

Lemma validEndDate_idempotent now endDate :
  0 <= now < 253402300800000 ->
  validEndDate now (validEndDate now endDate) = validEndDate now endDate.
Proof.
  intros Hnow. unfold validEndDate.
  destruct endDate as [| |d]; try reflexivity.
  destruct (now <? Date_getTime d) eqn:E; [|rewrite E; reflexivity].
  rewrite (future_date_iff now (utc_date now) Hnow), Z.ltb_irrefl. reflexivity.
Qed.

(** C5: for a calendar date (or a cleared or absent one) and a clock between
    1970 and the year 10000, the clamp of [handleFilterChange], which
    compares the texts, and the clamp of [fetchEarthquakes], which compares
    the instants, give the same end date: today when the date is after
    today, the date itself otherwise.  Each is idempotent, so the query built
    from the clamped filters is the query built from the filters as they
    were. *)
Theorem end_date_clamps_agree now f :
  0 <= now < 253402300800000 ->
  (forall d, range_endDate (dateRange f) = DDate d -> valid_date d) ->
  let given := range_endDate (dateRange f) in
  range_endDate (dateRange (handleFilterChange now f)) = validEndDate now given /\
  (forall d, given = DDate d ->
     validEndDate now given =
       if days_from_epoch (utc_date now) <? days_from_epoch d
       then DDate (utc_date now) else DDate d) /\
  clampEndDate now (clampEndDate now given) = clampEndDate now given /\
  validEndDate now (validEndDate now given) = validEndDate now given /\
  buildUrl now (loadParams (handleFilterChange now f)) = buildUrl now (loadParams f).
Proof.
  intros Hnow Hvalid given.
  pose proof (clampEndDate_validEndDate now given Hnow Hvalid) as Hagree.
  pose proof (validEndDate_idempotent now given Hnow) as Hidem.
  split; [exact Hagree|]. split.
  - intros d Hd. rewrite Hd. unfold validEndDate.
    rewrite (future_date_iff now d Hnow). reflexivity.
  - split; [|split; [exact Hidem|]].
    + rewrite Hagree.
      rewrite clampEndDate_validEndDate; [exact Hidem|exact Hnow|].
      intros d Hd. unfold validEndDate in Hd. fold given in Hvalid.
      destruct given as [| |d0]; try discriminate.
      destruct (now <? Date_getTime d0).
      * injection Hd as <-. apply (utc_date_valid now Hnow).
      * apply Hvalid. exact Hd.
    + unfold buildUrl, loadParams, handleFilterChange.
      cbn [timeRange minMagnitude startDate endDate isHistorical filters_timeRange
           filters_minMagnitude dateRange range_startDate range_endDate].
      fold given. rewrite Hagree, Hidem. reflexivity.
Qed.

(** On 2025-11-03 an end date of 2026-01-15 becomes 2025-11-03 either way. *)
Lemma end_date_clamps_agree_witness :
  range_endDate (dateRange (handleFilterChange sample_now
      (mkFilters "day" 2 true (mkRange (DDate (mkDate 2025 8 1)) (DDate (mkDate 2026 1 15)))))) =
    DDate (mkDate 2025 11 3) /\
  validEndDate sample_now (DDate (mkDate 2026 1 15)) = DDate (mkDate 2025 11 3).
Proof.
  assert (Hnow : 0 <= sample_now < 253402300800000) by (unfold sample_now; lia).
  destruct (end_date_clamps_agree sample_now
              (mkFilters "day" 2 true
                 (mkRange (DDate (mkDate 2025 8 1)) (DDate (mkDate 2026 1 15)))) Hnow)
    as (Hagree & Hclamp & _).
  - intros d [= <-]. unfold valid_date. cbn. lia.
  - cbn [range_endDate dateRange] in *. rewrite Hagree.
    split; exact (Hclamp (mkDate 2026 1 15) eq_refl).
Defined.

(** ** The start of the range *)


(** C6 fails on the other path.  The range is 2024-06-01 to 2024-12-01 and
    the user sets the end date to 2024-01-01: [handleDateChange] checks the
    new end against today only, [handleFilterChange] and [fetchEarthquakes]
    clamp the end only, and the query goes upstream with its start after its
    end. *)
Theorem end_date_edit_inverts_range :
  let edited :=
    handleFilterChange sample_now
      (handleDateChange sample_now sample_filters endDateInput (DDate (mkDate 2024 1 1))) in
  dateRange edited = mkRange (DDate (mkDate 2024 6 1)) (DDate (mkDate 2024 1 1)) /\
  days_from_epoch (mkDate 2024 1 1) < days_from_epoch (mkDate 2024 6 1) /\
  buildUrl sample_now (loadParams edited) =
    "https://earthquake.usgs.gov/fdsnws/event/1/query?format=geojson&starttime=2024-06-01&endtime=2024-01-01&minmagnitude=2&minlatitude=25&maxlatitude=40&minlongitude=44&maxlongitude=63&orderby=time&limit=500".
Proof.
  cbn zeta. split; [vm_compute; reflexivity|]. split; [vm_compute; reflexivity|].
  vm_compute. reflexivity.
Qed.

(** ** What a call leaves in the store *)

Lemma attempt_throw_store w p st e st' :
  attempt w p st = Done (Throw e) st' -> localStorage st' = localStorage st.
Proof.
  unfold attempt.
  destruct (getCachedData _ _ _ _); [discriminate|].
  destruct (try_block w p (buildUrl (now w) p) st) as [[d|e0] st1] eqn:Et; [discriminate|].
  apply try_block_throw_store in Et.
  destruct (catch_block _ e0) as [[text|] [e'|]]; try discriminate;
    intros [= _ <-]; exact Et.
Qed.

Lemma attempt_normal_store w p st d st' :
  attempt w p st = Done (Normal d) st' ->
  localStorage st' = localStorage st \/
  localStorage st' = <[cacheKey p := mkItem d (now w)]> (localStorage st).
Proof.
  unfold attempt.
  destruct (getCachedData _ _ _ _) as [c|]; [intros [= _ <-]; auto|].
  destruct (try_block w p (buildUrl (now w) p) st) as [[d0|e0] st1] eqn:Et.
  - intros [= <- <-]. unfold try_block in Et.
    destruct (fetch w _) as [e|r]; [discriminate|].
    destruct (negb (Response.ok r)); [discriminate|].
    destruct (Response.json r) as [d1|e]; [|discriminate].
    destruct (normalize _ _ d1) as [d'|e]; [|discriminate].
    injection Et as <- <-. unfold cacheData.
    destruct (quota_exceeded w); [left|right]; reflexivity.
  - destruct (catch_block _ e0) as [[text|] [e'|]]; discriminate.
Qed.

(** A call that fails writes nothing to the store: no partial or empty
    entry is left behind, with or without the fallback. *)
Theorem failed_call_leaves_store w p st e st' :
  fetchEarthquakes w p st = Some (Throw e, st') ->
  localStorage st' = localStorage st.
Proof.
  rewrite fetchEarthquakes_unfold.
  destruct (attempt w p st) as [r s|p' s] eqn:E1.
  - intros [= -> ->]. exact (attempt_throw_store _ _ _ _ _ E1).
  - apply attempt_calls_itself in E1 as (_ & _ & Hs).
    destruct (attempt w p' s) as [r2 s2|] eqn:E2; [|discriminate].
    intros [= -> ->]. rewrite (attempt_throw_store _ _ _ _ _ E2). exact Hs.
Qed.

Lemma failed_call_leaves_store_witness :
  exists st',
    fetchEarthquakes world_down_then_offline historical_query empty_state =
      Some (Throw (Error "Network error. Please check your internet connection and try again."), st') /\
    localStorage st' = localStorage empty_state.
Proof.
  destruct (fetchEarthquakes world_down_then_offline historical_query empty_state)
    as [[[d|e] st']|] eqn:E; try (vm_compute in E; discriminate).
  exists st'. split.
  - vm_compute in E. injection E as <- <-. vm_compute. reflexivity.
  - exact (failed_call_leaves_store _ _ _ _ _ E).
Defined.

Lemma attempt_normal_cases w p st d st' :
  attempt w p st = Done (Normal d) st' ->
  getCachedData (now w) (localStorage st) (cacheKey p) (cacheCategory p) = Some d /\
  st' = st \/
  cache_miss w p st /\ request_outcome w p = Normal d /\
  localStorage st' =
    (if quota_exceeded w then localStorage st
     else <[cacheKey p := mkItem d (now w)]> (localStorage st)).
Proof.
  intros Ha.
  destruct (getCachedData (now w) (localStorage st) (cacheKey p) (cacheCategory p))
    as [c|] eqn:Ec.
  - left. unfold attempt in Ha. rewrite Ec in Ha. injection Ha as -> ->. auto.
  - right. split; [exact Ec|].
    destruct (request_outcome w p) as [d0|e] eqn:Er.
    + rewrite (attempt_succeeded w p st d0 Ec Er) in Ha. injection Ha as -> <-.
      split; [reflexivity|]. unfold cacheData. destruct (quota_exceeded w); reflexivity.
    + destruct (attempt_failed w p st e Ec Er) as (st1 & _ & Ea). rewrite Ea in Ha.
      destruct (catch_block (timeRange p) e) as [warning [e'|]]; discriminate.
Qed.

Lemma attempt_fallback_cases w p st p' st1 :
  attempt w p st = CallsItself p' st1 ->
  cache_miss w p st /\
  exists e, request_outcome w p = Throw e /\ fallback_eligible e = true.
Proof.
  intros Ha.
  destruct (getCachedData (now w) (localStorage st) (cacheKey p) (cacheCategory p))
    as [c|] eqn:Ec.
  - unfold attempt in Ha. rewrite Ec in Ha. discriminate.
  - split; [exact Ec|].
    destruct (request_outcome w p) as [d0|e] eqn:Er.
    + rewrite (attempt_succeeded w p st d0 Ec Er) in Ha. discriminate.
    + exists e. split; [reflexivity|].
      destruct (attempt_failed w p st e Ec Er) as (st2 & _ & Ea). rewrite Ea in Ha.
      destruct (catch_block (timeRange p) e) as [warning [e'|]] eqn:Hc; [discriminate|].
      apply catch_block_fallback in Hc. tauto.
Qed.

(** What a call that returns data does to the store, case by case.  Data
    read from the cache, for the query or for its week fallback, leaves the
    store as it was.  Data that came from the network is stored, stamped
    with the current time, under the key of the query that was answered: the
    caller's own key when its own request succeeded, the week-feed key when
    the historical request failed and the fallback's request succeeded; with
    no room the store is left as it was.  Nothing else is ever written. *)
Theorem successful_call_store w p st d st' :
  fetchEarthquakes w p st = Some (Normal d, st') ->
  let stored key :=
    if quota_exceeded w then localStorage st
    else <[key := mkItem d (now w)]> (localStorage st) in
  let week := fallbackParams p in
  (getCachedData (now w) (localStorage st) (cacheKey p) (cacheCategory p) = Some d /\
   localStorage st' = localStorage st) \/
  (cache_miss w p st /\ request_outcome w p = Normal d /\
   localStorage st' = stored (cacheKey p)) \/
  (timeRange p = "custom" /\ cache_miss w p st /\
   (exists e, request_outcome w p = Throw e /\ fallback_eligible e = true) /\
   ((getCachedData (now w) (localStorage st) (cacheKey week) (cacheCategory week) = Some d /\
     localStorage st' = localStorage st) \/
    (cache_miss w week st /\ request_outcome w week = Normal d /\
     localStorage st' = stored (cacheKey week)))).
Proof.
  cbn zeta. rewrite fetchEarthquakes_unfold.
  destruct (attempt w p st) as [r s|p' s] eqn:E1.
  - intros [= -> ->].
    destruct (attempt_normal_cases _ _ _ _ _ E1) as [[Hhit ->]|(Hmiss & Hreq & Hs)].
    + left. auto.
    + right. left. auto.
  - destruct (attempt_fallback_cases _ _ _ _ _ E1) as (Hmiss & Hfail).
    apply attempt_calls_itself in E1 as (Hcustom & -> & Hs).
    destruct (attempt w (fallbackParams p) s) as [r2 s2|] eqn:E2; [|discriminate].
    intros [= -> ->]. right. right.
    split; [exact Hcustom|]. split; [exact Hmiss|]. split; [exact Hfail|].
    destruct (attempt_normal_cases _ _ _ _ _ E2) as [[Hhit ->]|(Hmiss2 & Hreq2 & Hs2)].
    + left. rewrite <- Hs. auto.
    + right. unfold cache_miss in *. rewrite Hs in Hmiss2, Hs2. auto.
Qed.

(** The query service answers 503 and the week feed answers: the result is
    stored under the week key and nowhere else. *)
Lemma successful_call_store_witness :
  exists d st',
    fetchEarthquakes world_query_down historical_query empty_state = Some (Normal d, st') /\
    request_outcome world_query_down (fallbackParams historical_query) = Normal d /\
    localStorage st' =
      <[cacheKey (fallbackParams historical_query) := mkItem d (now world_query_down)]>
        (localStorage empty_state).
Proof.
  destruct (fetchEarthquakes world_query_down historical_query empty_state)
    as [[[d|e] st']|] eqn:E; try (vm_compute in E; discriminate).
  exists d, st'. split; [reflexivity|].
  destruct (successful_call_store _ _ _ _ _ E)
    as [[Hhit _]|[(_ & Hreq & _)|(_ & _ & _ & [[Hhit _]|(_ & Hreq & Hs)])]].
  - vm_compute in Hhit. discriminate.
  - vm_compute in Hreq. discriminate.
  - vm_compute in Hhit. discriminate.
  - split; [exact Hreq|exact Hs].
Defined.

(** ** Reading back what a call stored *)

Lemma attempt_hit w p st d :
  getCachedData (now w) (localStorage st) (cacheKey p) (cacheCategory p) = Some d ->
  fetchEarthquakes w p st = Some (Normal d, st).
Proof.
  intros H. rewrite fetchEarthquakes_unfold. unfold attempt. rewrite H. reflexivity.
Qed.

(** A query answered from the network is stored (when there is room) and
    answers the same query again for as long as the entry is younger than the
    duration of its category: the repeat returns the same data, makes no
    request and changes nothing, which is also what the refresh button and
    the five-minute timer get.  From the moment the age reaches the duration
    the entry is not read any more. *)
Theorem repeat_within_duration w p st d duration :
  cache_miss w p st ->
  request_outcome w p = Normal d ->
  quota_exceeded w = false ->
  cacheDuration (cacheCategory p) = Some duration ->
  exists st',
    fetchEarthquakes w p st = Some (Normal d, st') /\
    (forall w2, now w2 - now w < duration ->
       fetchEarthquakes w2 p st' = Some (Normal d, st')) /\
    (forall w2, duration <= now w2 - now w -> cache_miss w2 p st').
Proof.
  intros Hmiss Hreq Hq Hdur.
  eexists. rewrite fetchEarthquakes_unfold, (attempt_succeeded w p st d Hmiss Hreq).
  split; [reflexivity|].
  unfold cacheData. rewrite Hq.
  split; intros w2 Hage.
  - apply attempt_hit. cbn [localStorage].
    destruct (getCachedData_valid_iff (now w2)
                (<[cacheKey p := mkItem d (now w)]> (localStorage st))
                (cacheKey p) (cacheCategory p) (mkItem d (now w)) duration
                (lookup_insert_eq _ _ _) Hdur) as [Hvalid _].
    exact (Hvalid Hage).
  - unfold cache_miss. cbn [localStorage].
    destruct (getCachedData_valid_iff (now w2)
                (<[cacheKey p := mkItem d (now w)]> (localStorage st))
                (cacheKey p) (cacheCategory p) (mkItem d (now w)) duration
                (lookup_insert_eq _ _ _) Hdur) as [_ Hexpired].
    exact (Hexpired Hage).
Qed.

Lemma repeat_within_duration_witness :
  exists st',
    fetchEarthquakes world_feed_up day_query empty_state =
      Some (Normal (mkData (Some (sample_metadata 1)) (Some [tehran])), st') /\
    fetchEarthquakes (mkWorld (sample_now + 10 * 60 * 1000) (fetch world_offline) false)
      day_query st' =
      Some (Normal (mkData (Some (sample_metadata 1)) (Some [tehran])), st') /\
    cache_miss (mkWorld (sample_now + 15 * 60 * 1000) (fetch world_offline) false)
      day_query st'.
Proof.
  assert (Hmiss : cache_miss world_feed_up day_query empty_state) by (vm_compute; reflexivity).
  assert (Hreq : request_outcome world_feed_up day_query =
                 Normal (mkData (Some (sample_metadata 1)) (Some [tehran])))
    by (vm_compute; reflexivity).
  destruct (repeat_within_duration world_feed_up day_query empty_state _ (15 * 60 * 1000)
              Hmiss Hreq eq_refl eq_refl) as (st' & Hcall & Hhit & Hexp).
  exists st'. split; [exact Hcall|]. split.
  - apply Hhit. cbn [now]. unfold world_feed_up. cbn [now]. lia.
  - apply Hexp. cbn [now]. unfold world_feed_up. cbn [now]. lia.
Defined.

(** ** No room in the store *)

Lemma try_block_with_room w p url st :
  fst (try_block (with_room w) p url st) = fst (try_block w p url st).
Proof.
  unfold try_block, with_room. cbn [fetch now quota_exceeded].
  destruct (fetch w url) as [e|r]; [reflexivity|].
  destruct (negb (Response.ok r)); [reflexivity|].
  destruct (Response.json r) as [d|e]; [|reflexivity].
  destruct (normalize _ _ d); reflexivity.
Qed.

Lemma try_block_full_store w p url st r st1 :
  quota_exceeded w = true ->
  try_block w p url st = (r, st1) -> localStorage st1 = localStorage st.
Proof.
  intros Hq. unfold try_block.
  destruct (fetch w url) as [e|res]; [intros [= _ <-]; reflexivity|].
  destruct (negb (Response.ok res)); [intros [= _ <-]; reflexivity|].
  destruct (Response.json res) as [d|e]; [|intros [= _ <-]; reflexivity].
  destruct (normalize _ _ d); [|intros [= _ <-]; reflexivity].
  unfold cacheData. rewrite Hq. intros [= _ <-]. reflexivity.
Qed.

(** One pass with a full store, next to the same pass with room, from
    states that hold the same store: same result, and the full store is left
    as it was. *)
Lemma attempt_full_store w p st st0 :
  quota_exceeded w = true ->
  localStorage st0 = localStorage st ->
  match attempt w p st, attempt (with_room w) p st0 with
  | Done r s, Done r0 _ => r = r0 /\ localStorage s = localStorage st
  | CallsItself p' s, CallsItself p0 s0 =>
    p' = p0 /\ localStorage s = localStorage st /\ localStorage s0 = localStorage st
  | _, _ => False
  end.
Proof.
  intros Hq Hst. unfold attempt. cbn [now with_room]. rewrite Hst.
  destruct (getCachedData _ _ _ _) as [c|]; [auto|].
  pose proof (try_block_with_room w p (buildUrl (now w) p) st0) as Hsame.
  rewrite (try_block_outcome w p _ st0 st) in Hsame.
  destruct (try_block w p (buildUrl (now w) p) st) as [r st1] eqn:Et.
  destruct (try_block (with_room w) p (buildUrl (now w) p) st0) as [r0 st2] eqn:Et0.
  cbn in Hsame. subst r0.
  pose proof (try_block_full_store _ _ _ _ _ _ Hq Et) as Hs1.
  destruct r as [d|e]; [auto|].
  pose proof (try_block_throw_store _ _ _ _ _ _ Et0) as Hs2.
  destruct (catch_block _ e) as [[text|] [e'|]]; cbn; rewrite ?Hs1, ?Hs2, ?Hst; auto.
Qed.

(** A full store never breaks the data path: the call ends exactly as it
    would with room, and the store is left as it was. *)
Theorem full_store_is_harmless w p st :
  quota_exceeded w = true ->
  exists result st',
    fetchEarthquakes w p st = Some (result, st') /\
    localStorage st' = localStorage st /\
    exists st0, fetchEarthquakes (with_room w) p st = Some (result, st0).
Proof.
  intros Hq. rewrite !fetchEarthquakes_unfold.
  pose proof (attempt_full_store w p st st Hq eq_refl) as H1.
  destruct (attempt w p st) as [r s|p' s] eqn:E1;
    destruct (attempt (with_room w) p st) as [r0 s0|p0 s0] eqn:E0; try contradiction.
  - destruct H1 as [-> Hs]. eauto 6.
  - destruct H1 as (-> & Hs & Hs0).
    pose proof (attempt_full_store w p0 s s0 Hq (eq_trans Hs0 (eq_sym Hs))) as H2.
    apply attempt_calls_itself in E1 as (_ & -> & _).
    destruct (attempt_realtime_done w (fallbackParams p) s (fallbackParams_realtime p))
      as (r2 & s2 & E2).
    rewrite E2 in *.
    destruct (attempt (with_room w) (fallbackParams p) s0) as [r3 s3|] eqn:E3;
      [|contradiction].
    destruct H2 as [-> Hs2]. exists r3, s2. split; [reflexivity|].
    split; [congruence|eauto].
Qed.

Lemma full_store_is_harmless_witness :
  exists result st',
    fetchEarthquakes (mkWorld sample_now (fetch world_feed_up) true) day_query empty_state =
      Some (result, st') /\
    localStorage st' = localStorage empty_state /\
    exists st0,
      fetchEarthquakes (with_room (mkWorld sample_now (fetch world_feed_up) true))
        day_query empty_state = Some (result, st0).
Proof.
  apply (full_store_is_harmless (mkWorld sample_now (fetch world_feed_up) true)
           day_query empty_state).
  reflexivity.
Defined.


(** ** Errors that are not retried *)

Lemma done_throw w p st e e' warning :
  cache_miss w p st -> request_outcome w p = Throw e ->
  catch_block (timeRange p) e = (warning, Rethrow e') ->
  exists st',
    fetchEarthquakes w p st = Some (Throw e', st') /\
    localStorage st' = localStorage st /\
    exists lines, console st' = (console st ++ lines)%list /\
      fallbacks lines = 0%nat /\ requests lines = 1%nat.
Proof.
  intros Hmiss Hreq Hc.
  destruct (attempt_failed w p st e Hmiss Hreq) as (st1 & Hs1 & Ea).
  rewrite Hc in Ea.
  destruct (attempt_console w p st) as (lines & Hl & Hr & Hf).
  destruct (attempt_miss_console w p st Hmiss) as (rest & Hrest).
  rewrite Ea in Hl, Hf, Hrest. cbn [state_after] in Hl, Hrest.
  eexists. rewrite fetchEarthquakes_unfold, Ea. split; [reflexivity|].
  split; [destruct warning; exact Hs1|].
  exists lines. split; [exact Hl|]. split; [exact Hf|].
  rewrite Hl in Hrest. apply app_inv_head in Hrest. subst lines.
  cbn [requests List.filter] in *. unfold requests in *.
  cbn [List.filter] in *.
  assert (Hline : is_request_line (request_line (buildUrl (now w) p)) = true).
  { unfold is_request_line, request_line. cbn [level line].
    generalize (buildUrl (now w) p). intros u.
    rewrite !append_String. cbn. clear. induction u; reflexivity. }
  rewrite Hline in *. cbn [length] in *. lia.
Qed.

(** A request that is aborted (the 30 second timeout) is reported as a
    timeout and never retried, for a historical query as for a real-time
    one; nothing is stored. *)
Theorem timeout_is_not_retried w p st e :
  cache_miss w p st ->
  request_outcome w p = Throw e ->
  name e = "AbortError" ->
  exists st',
    fetchEarthquakes w p st =
      Some (Throw (Error "Request timed out. The USGS server might be experiencing high load."), st') /\
    localStorage st' = localStorage st /\
    exists lines, console st' = (console st ++ lines)%list /\
      fallbacks lines = 0%nat /\ requests lines = 1%nat.
Proof.
  intros Hmiss Hreq Hname.
  apply (done_throw w p st e _ None Hmiss Hreq).
  unfold catch_block. rewrite Hname. reflexivity.
Qed.

Lemma timeout_is_not_retried_witness :
  exists st',
    fetchEarthquakes world_timeout historical_query empty_state =
      Some (Throw (Error "Request timed out. The USGS server might be experiencing high load."), st') /\
    localStorage st' = localStorage empty_state /\
    exists lines, console st' = (console empty_state ++ lines)%list /\
      fallbacks lines = 0%nat /\ requests lines = 1%nat.
Proof.
  apply (timeout_is_not_retried world_timeout historical_query empty_state
           (mkError "AbortError" "The user aborted a request."));
    vm_compute; reflexivity.
Defined.

Lemma includes_cons c s sub :
  includes (String c s) sub = String.prefix sub (String c s) || includes s sub.
Proof.
  unfold includes. cbn [String.index].
  destruct (String.prefix sub (String c s)); [reflexivity|].
  destruct (String.index 0 sub s); reflexivity.
Qed.

Lemma prefix_append sub t : String.prefix sub (sub +:+ t) = true.
Proof.
  induction sub as [|c sub IH]; [destruct t; reflexivity|].
  rewrite append_String. cbn [String.prefix].
  destruct (ascii_dec c c); [exact IH|contradiction].
Qed.

Lemma includes_append a sub b : includes (a +:+ sub +:+ b) sub = true.
Proof.
  induction a as [|c a IH].
  - change ("" +:+ sub +:+ b) with (sub +:+ b).
    destruct sub as [|c sub]; [destruct b; reflexivity|].
    rewrite append_String, includes_cons, <- append_String, prefix_append. reflexivity.
  - rewrite append_String, includes_cons, IH. apply orb_true_r.
Qed.

Ltac skip_known_text :=
  rewrite ?append_String;
  repeat (rewrite includes_cons;
          match goal with
          | |- context [String.prefix ?a ?b] =>
            let v := eval vm_compute in (String.prefix a b) in
            change (String.prefix a b) with v
          end;
          cbn [orb]).

(** A response with status 400 is never retried either.  For a historical
    query it is reported as an invalid date range, for a real-time query as
    an API error that quotes the status line; the body is not read and
    nothing is stored. *)
Theorem bad_request_is_not_retried w p st r :
  cache_miss w p st ->
  fetch w (buildUrl (now w) p) = Responds r ->
  Response.status r = 400 ->
  includes (Response.statusText r) "Failed to fetch" = false ->
  includes (Response.statusText r) "orderby" = false ->
  exists st',
    fetchEarthquakes w p st =
      Some (Throw (Error
              (if String.eqb (timeRange p) "custom"
               then "Invalid date range. Please ensure your dates are valid and not in the future."
               else "API error: Server responded with 400: " +:+ Response.statusText r)),
            st') /\
    localStorage st' = localStorage st /\
    exists lines, console st' = (console st ++ lines)%list /\
      fallbacks lines = 0%nat /\ requests lines = 1%nat.
Proof.
  intros Hmiss Hfetch Hstatus Hnet Horder.
  assert (Hreq : request_outcome w p =
                 Throw (Error ("Server responded with 400: " +:+ Response.statusText r))).
  { unfold request_outcome, try_block. rewrite Hfetch. unfold Response.ok.
    rewrite Hstatus. reflexivity. }
  destruct (String.eqb (timeRange p) "custom") eqn:Etr.
  - apply (done_throw w p st _ _
             (Some "Date range error detected, likely invalid date parameters") Hmiss Hreq).
    unfold catch_block. rewrite Etr. cbn [name message Error String.eqb Ascii.eqb].
    replace (includes ("Server responded with 400: " +:+ Response.statusText r) "Failed to fetch")
      with false by (symmetry; skip_known_text; exact Hnet).
    replace (includes ("Server responded with 400: " +:+ Response.statusText r) "orderby")
      with false by (symmetry; skip_known_text; exact Horder).
    replace (includes ("Server responded with 400: " +:+ Response.statusText r) "400")
      with true
      by (symmetry;
          exact (includes_append "Server responded with " "400" (": " +:+ Response.statusText r))).
    reflexivity.
  - apply (done_throw w p st _ _ None Hmiss Hreq).
    unfold catch_block. rewrite Etr. cbn [name message Error String.eqb Ascii.eqb].
    replace (includes ("Server responded with 400: " +:+ Response.statusText r) "Failed to fetch")
      with false by (symmetry; skip_known_text; exact Hnet).
    replace (includes ("Server responded with 400: " +:+ Response.statusText r) "orderby")
      with false by (symmetry; skip_known_text; exact Horder).
    replace (includes ("Server responded with 400: " +:+ Response.statusText r) "400")
      with true
      by (symmetry;
          exact (includes_append "Server responded with " "400" (": " +:+ Response.statusText r))).
    reflexivity.
Qed.

Lemma bad_request_is_not_retried_witness :
  exists st',
    fetchEarthquakes world_bad_request historical_query empty_state =
      Some (Throw (Error "Invalid date range. Please ensure your dates are valid and not in the future."), st') /\
    localStorage st' = localStorage empty_state /\
    exists lines, console st' = (console empty_state ++ lines)%list /\
      fallbacks lines = 0%nat /\ requests lines = 1%nat.
Proof.
  apply (bad_request_is_not_retried world_bad_request historical_query empty_state
           (Response.mk 400 "Bad Request" (Some "Error 400: Bad Request")
              (Throw (mkError "SyntaxError" "Unexpected token E in JSON at position 0"))));
    vm_compute; reflexivity.
Defined.


(** ** What a real-time result can hold *)

Lemma array_filter_kept {A} (cb : A -> Completion bool) l kept :
  array_filter cb l = Normal kept ->
  sublist kept l /\ forall x, In x kept -> cb x = Normal true.
Proof.
  revert kept. induction l as [|x l IH]; cbn; intros kept.
  - intros [= <-]. split; [constructor|intros ? []].
  - destruct (cb x) as [keep|e] eqn:Ex; [|discriminate].
    destruct (array_filter cb l) as [kept'|e]; [|discriminate].
    destruct (IH kept' eq_refl) as [Hsub Hall].
    intros [= <-]. destruct keep.
    + split; [constructor; exact Hsub|]. intros y [<-|Hy]; auto.
    + split; [constructor; exact Hsub|exact Hall].
Qed.

Lemma filter_callback_true minMagnitude f :
  filter_callback minMagnitude f = Normal true ->
  inside_box f /\ strong_enough minMagnitude f.
Proof.
  unfold filter_callback, inside_box, strong_enough.
  destruct f as [i props [[[cs|]]|]]; cbn [geometry properties coordinates];
    try discriminate.
  unfold js_ge, js_le, IRAN_BOUNDS_at.
  destruct cs as [|[| |lon] [|[| |lat] rest]]; cbn;
    try discriminate;
    try (destruct (Qle_bool 44 lon && Qle_bool lon 63); cbn; discriminate).
  destruct (Qle_bool 44 lon && Qle_bool lon 63 && Qle_bool 25 lat && Qle_bool lat 40)
    eqn:Ebox; [|discriminate].
  rewrite !andb_true_iff, !Qle_bool_iff in Ebox.
  destruct props as [p|]; [|discriminate].
  intros [= Hm]. split.
  - exists lon, lat, rest. tauto.
  - destruct (ToNumber (mag p)) as [m|] eqn:Em; [|discriminate].
    exists p, m. rewrite Qle_bool_iff in Hm. auto.
Qed.

(** Whatever a real-time feed sends, a normalization that succeeds returns
    records of the feed, in the feed's order, all of them with a numeric
    longitude and latitude inside the bounding box and a magnitude that
    reads as at least [minMagnitude]; the count is their number.  No record
    from outside the box is ever returned, well formed or not. *)
Theorem realtime_results_inside_box timeRange minMagnitude d d' :
  timeRange <> "custom" ->
  normalize timeRange minMagnitude d = Normal d' ->
  exists md fs kept,
    metadata d = Some md /\ features d = Some fs /\
    d' = mkData (Some (set_count md (Z.of_nat (length kept)))) (Some kept) /\
    sublist kept fs /\
    forall f, In f kept -> inside_box f /\ strong_enough minMagnitude f.
Proof.
  intros Hrt. apply String.eqb_neq in Hrt. unfold normalize. rewrite Hrt. cbn [negb].
  destruct (features d) as [fs|]; [|discriminate].
  destruct (array_filter _ fs) as [kept|e] eqn:Ef; [|discriminate].
  destruct (metadata d) as [md|]; [|discriminate].
  intros [= <-]. exists md, fs, kept.
  destruct (array_filter_kept _ _ _ Ef) as [Hsub Hall].
  split; [reflexivity|]. split; [reflexivity|]. split; [reflexivity|].
  split; [exact Hsub|]. intros f Hin. apply filter_callback_true, Hall, Hin.
Qed.

Lemma realtime_results_inside_box_witness :
  exists md fs kept,
    metadata (mkData (Some (sample_metadata 4)) (Some [null_magnitude; tokyo; no_magnitude; tehran])) = Some md /\
    features (mkData (Some (sample_metadata 4)) (Some [null_magnitude; tokyo; no_magnitude; tehran])) = Some fs /\
    mkData (Some (sample_metadata 2)) (Some [null_magnitude; tehran]) =
      mkData (Some (set_count md (Z.of_nat (length kept)))) (Some kept) /\
    sublist kept fs /\
    forall f, In f kept -> inside_box f /\ strong_enough 0 f.
Proof.
  apply (realtime_results_inside_box "week" 0
           (mkData (Some (sample_metadata 4)) (Some [null_magnitude; tokyo; no_magnitude; tehran]))).
  - discriminate.
  - reflexivity.
Defined.


(** ** The date range the components keep *)

Lemma clampEndDate_not_after now endDate :
  0 <= now < 253402300800000 ->
  (forall d, endDate = DDate d -> valid_date d) ->
  not_after (clampEndDate now endDate) (utc_date now) /\
  (forall d, clampEndDate now endDate = DDate d -> valid_date d).
Proof.
  intros Hnow Hvalid. destruct (utc_date_valid now Hnow) as [Htoday _].
  unfold clampEndDate, not_after.
  destruct endDate as [| |d]; cbn [DateField_gt DateField_template];
    try (split; intros; discriminate).
  rewrite (string_gt_formatDate d (utc_date now) (Hvalid d eq_refl) Htoday).
  destruct (Z.ltb_spec (days_from_epoch (utc_date now)) (days_from_epoch d)).
  - split; intros c [= <-]; [lia|exact Htoday].
  - split; intros c [= <-]; [lia|exact (Hvalid d eq_refl)].
Qed.

(** Whichever handler the end date goes through, with a calendar date, a
    cleared field or none, what is kept is never a date after today: not
    after a filter change, not after an edit of the end date, and not in the
    end date [fetchEarthquakes] sends upstream.  A filter change touches
    nothing but the end date. *)
Theorem end_date_never_after_today now f value :
  0 <= now < 253402300800000 ->
  (forall d, range_endDate (dateRange f) = DDate d -> valid_date d) ->
  (forall d, value = DDate d -> valid_date d) ->
  not_after (range_endDate (dateRange (handleFilterChange now f))) (utc_date now) /\
  not_after (range_endDate (dateRange (handleDateChange now f endDateInput value)))
    (utc_date now) /\
  not_after (validEndDate now (range_endDate (dateRange f))) (utc_date now) /\
  filters_timeRange (handleFilterChange now f) = filters_timeRange f /\
  filters_minMagnitude (handleFilterChange now f) = filters_minMagnitude f /\
  isHistorical (handleFilterChange now f) = isHistorical f /\
  range_startDate (dateRange (handleFilterChange now f)) = range_startDate (dateRange f).
Proof.
  intros Hnow Hend Hvalue.
  pose proof (clampEndDate_not_after now _ Hnow Hend) as [H1 _].
  pose proof (clampEndDate_not_after now _ Hnow Hvalue) as [H2 _].
  split; [exact H1|]. split; [exact H2|]. split; [|repeat split].
  rewrite <- (clampEndDate_validEndDate now _ Hnow Hend). exact H1.
Qed.

Lemma end_date_never_after_today_witness :
  not_after (range_endDate (dateRange (handleFilterChange sample_now
               (mkFilters "day" 2 true (mkRange DEmpty (DDate (mkDate 2030 2 28)))))))
    (utc_date sample_now) /\
  not_after (range_endDate (dateRange (handleDateChange sample_now sample_filters
               endDateInput (DDate (mkDate 2030 2 28)))))
    (utc_date sample_now).
Proof.
  assert (Hnow : 0 <= sample_now < 253402300800000) by (unfold sample_now; lia).
  assert (Hv : forall d, DDate (mkDate 2030 2 28) = DDate d -> valid_date d)
    by (intros d [= <-]; unfold valid_date; cbn [year month day]; vm_compute (days_in_month _ _); lia).
  destruct (end_date_never_after_today sample_now
              (mkFilters "day" 2 true (mkRange DEmpty (DDate (mkDate 2030 2 28))))
              (DDate (mkDate 2030 2 28)) Hnow Hv Hv) as (H1 & _).
  assert (Hs : forall d, range_endDate (dateRange sample_filters) = DDate d -> valid_date d)
    by (intros d [= <-]; unfold valid_date; cbn [year month day]; vm_compute (days_in_month _ _); lia).
  destruct (end_date_never_after_today sample_now sample_filters
              (DDate (mkDate 2030 2 28)) Hnow Hs Hv) as (_ & H2 & _).
  split; [exact H1|exact H2].
Defined.



(** The default date range ends today and starts exactly 90 days earlier,
    so it is neither inverted nor in the future, and a filter change leaves
    it as it is. *)
Theorem initial_date_range now :
  90 * msPerDay <= now < 253402300800000 ->
  exists s e,
    initialDateRange now = mkRange (DDate s) (DDate e) /\
    valid_date s /\ valid_date e /\
    e = utc_date now /\
    days_from_epoch e - days_from_epoch s = 90 /\
    clampEndDate now (DDate e) = DDate e.
Proof.
  unfold msPerDay. intros Hnow.
  assert (H1 : 0 <= now < 253402300800000) by lia.
  assert (H2 : 0 <= now - 90 * 24 * 60 * 60 * 1000 < 253402300800000) by lia.
  destruct (utc_date_valid now H1) as [Ve De].
  destruct (utc_date_valid _ H2) as [Vs Ds].
  exists (utc_date (now - 90 * 24 * 60 * 60 * 1000)), (utc_date now).
  split; [reflexivity|]. split; [exact Vs|]. split; [exact Ve|].
  split; [reflexivity|]. split.
  - rewrite De, Ds. unfold msPerDay. Z.div_mod_to_equations. lia.
  - unfold clampEndDate. cbn [DateField_gt DateField_template].
    rewrite (string_gt_formatDate _ _ Ve Ve), Z.ltb_irrefl. reflexivity.
Qed.

Lemma initial_date_range_witness :
  exists s e,
    initialDateRange sample_now = mkRange (DDate s) (DDate e) /\
    valid_date s /\ valid_date e /\
    e = utc_date sample_now /\
    days_from_epoch e - days_from_epoch s = 90 /\
    clampEndDate sample_now (DDate e) = DDate e.
Proof.
  apply (initial_date_range sample_now). unfold msPerDay, sample_now. lia.
Defined.


(** ** The colour of a magnitude *)

Ltac compare_with_constants :=
  repeat match goal with
         | |- context [Z.leb ?a ?b] => destruct (Z.leb_spec a b)
         end;
  cbn; try reflexivity; try lia.

(** The badge of the list and the badge of the details card take their
    colour from two different cascades; for every number the list badge has
    the colour of the details badge.  For a magnitude that is [null] or
    absent [formatMagnitude] throws and there is no badge. *)
Theorem magnitude_colours_agree v :
  match v with
  | JNum m => formatMagnitude v = Normal (getMagnitudeColor v)
  | _ => exists e, formatMagnitude v = Throw e /\ name e = "TypeError"
  end.
Proof.
  destruct v as [| |[n d]].
  - eexists. split; reflexivity.
  - eexists. split; reflexivity.
  - unfold formatMagnitude, getMagnitudeColor, js_ge, js_lt, ToNumber, Qle_bool.
    cbn [Qnum Qden]. compare_with_constants.
Qed.

(** The five bands of the colour scale: below 2, from 2, from 4, from 6 and
    from 8 upward. *)
Theorem magnitude_colour_bands m :
  ((m < 2)%Q -> getMagnitudeColor (JNum m) = "bg-green-500") /\
  ((2 <= m)%Q -> (m < 4)%Q -> getMagnitudeColor (JNum m) = "bg-yellow-500") /\
  ((4 <= m)%Q -> (m < 6)%Q -> getMagnitudeColor (JNum m) = "bg-orange-500") /\
  ((6 <= m)%Q -> (m < 8)%Q -> getMagnitudeColor (JNum m) = "bg-red-500") /\
  ((8 <= m)%Q -> getMagnitudeColor (JNum m) = "bg-red-700").
Proof.
  destruct m as [n d].
  unfold getMagnitudeColor, js_lt, ToNumber, Qle_bool, Qlt, Qle. cbn [Qnum Qden].
  repeat split; intros; compare_with_constants.
Qed.

Lemma magnitude_colours_agree_witness :
  formatMagnitude (JNum (45 # 10)) = Normal (getMagnitudeColor (JNum (45 # 10))).
Proof. exact (magnitude_colours_agree (JNum (45 # 10))). Defined.

Lemma magnitude_colour_bands_witness :
  getMagnitudeColor (JNum (45 # 10)) = "bg-orange-500".
Proof.
  destruct (magnitude_colour_bands (45 # 10)) as (_ & _ & H & _).
  apply H; [unfold Qle; cbn; lia|unfold Qlt; cbn; lia].
Defined.

(** ** The statistics of the sidebar *)

Lemma all_properties_length eqs ps :
  all_properties eqs = Some ps -> length ps = length eqs.
Proof.
  revert ps. induction eqs as [|e eqs IH]; cbn; intros ps.
  - intros [= <-]. reflexivity.
  - destruct (properties e); [|discriminate].
    destruct (all_properties eqs) as [ps'|]; [|discriminate].
    intros [= <-]. cbn. rewrite (IH ps' eq_refl). reflexivity.
Qed.

Lemma filter_length_le {A} (keep : A -> bool) l :
  (length (List.filter keep l) <= length l)%nat.
Proof. induction l as [|x l IH]; cbn; [lia|]. destruct (keep x); cbn; lia. Qed.

Lemma Math_max_numbers ps :
  ps <> [] ->
  Forall (fun p => exists x, mag p = JNum x) ps ->
  exists m,
    Math_max (map mag ps) = Finite m /\
    (exists p, In p ps /\ mag p = JNum m) /\
    (forall p x, In p ps -> mag p = JNum x -> (x <= m)%Q).
Proof.
  induction ps as [|p ps IH]; [contradiction|]. intros _ Hall.
  apply Forall_cons in Hall as [[x Hx] Hall]. cbn [map Math_max]. rewrite Hx. cbn [ToNumber].
  destruct ps as [|q ps].
  - cbn. exists x. split; [reflexivity|]. split.
    + exists p. split; [left; reflexivity|exact Hx].
    + intros p' x' [<-|[]] Hx'. rewrite Hx in Hx'. injection Hx' as <-. apply Qle_refl.
  - destruct (IH ltac:(discriminate) Hall) as (m & Hm & (pm & Hin & Hpm) & Hbound).
    rewrite Hm. destruct (Qle_bool x m) eqn:E.
    + apply Qle_bool_iff in E. exists m. split; [reflexivity|]. split.
      * exists pm. split; [right; exact Hin|exact Hpm].
      * intros p' x' [<-|Hin'] Hx'.
        -- rewrite Hx in Hx'. injection Hx' as <-. exact E.
        -- exact (Hbound p' x' Hin' Hx').
    + assert (Hlt : (m < x)%Q).
      { apply Qnot_le_lt. intros H. apply Qle_bool_iff in H. congruence. }
      exists x. split; [reflexivity|]. split.
      * exists p. split; [left; reflexivity|exact Hx].
      * intros p' x' [<-|Hin'] Hx'.
        -- rewrite Hx in Hx'. injection Hx' as <-. apply Qle_refl.
        -- apply Qle_trans with m; [exact (Hbound p' x' Hin' Hx')|].
           apply Qlt_le_weak. exact Hlt.
Qed.

(** The statistics of a list whose records all have their [properties]:
    the total is the length of the list, the significant and the recent
    records are counted among them, and when every magnitude is a number the
    maximum is the magnitude of one of the records, no record exceeds it,
    and no record counts as significant exactly when it is below 4.  On an
    empty list the effect returns before it sets anything: the panel keeps
    the statistics of the previous list. *)
Theorem sidebar_statistics now eqs ps stats :
  calculateStats now [] stats = Normal stats /\
  (eqs <> [] -> all_properties eqs = Some ps ->
   exists s,
     calculateStats now eqs stats = Normal s /\
     total s = length eqs /\
     (significant s <= total s)%nat /\
     (recent24h s <= total s)%nat /\
     (Forall (fun p => exists x, mag p = JNum x) ps ->
      exists m,
        maxMagnitude s = Finite m /\
        (exists p, In p ps /\ mag p = JNum m) /\
        (forall p x, In p ps -> mag p = JNum x -> (x <= m)%Q) /\
        (significant s = 0%nat <-> (m < 4)%Q))).
Proof.
  split; [reflexivity|]. intros Hne Hps.
  pose proof (all_properties_length eqs ps Hps) as Hlen.
  unfold calculateStats. rewrite Hps.
  destruct eqs as [|e eqs]; [contradiction|]. cbn [length Nat.eqb] in Hlen |- *.
  eexists. split; [reflexivity|]. cbn [total significant recent24h maxMagnitude].
  split; [reflexivity|].
  split; [rewrite <- Hlen; apply filter_length_le|].
  split; [rewrite <- Hlen; apply filter_length_le|].
  intros Hnum.
  assert (Hps_ne : ps <> []) by (intros ->; discriminate).
  destruct (Math_max_numbers ps Hps_ne Hnum) as (m & Hm & (pm & Hin & Hpm) & Hbound).
  exists m. split; [exact Hm|]. split; [eauto|]. split; [exact Hbound|].
  split.
  - intros Hzero. apply Qnot_le_lt. intros H4.
    assert (Hin' : In pm (List.filter (fun p => js_ge (mag p) 4) ps)).
    { apply filter_In. split; [exact Hin|]. rewrite Hpm. unfold js_ge. cbn.
      apply Qle_bool_iff. exact H4. }
    destruct (List.filter _ ps); [contradiction|discriminate].
  - intros Hlt.
    destruct (List.filter (fun p => js_ge (mag p) 4) ps) as [|q l] eqn:Ef; [reflexivity|].
    exfalso.
    assert (Hq : In q (List.filter (fun p => js_ge (mag p) 4) ps)) by (rewrite Ef; left; reflexivity).
    apply filter_In in Hq as [Hq Hge].
    rewrite Forall_forall in Hnum. destruct (Hnum q) as [x Hx].
    { apply list_elem_of_In. exact Hq. }
    rewrite Hx in Hge. unfold js_ge in Hge. cbn in Hge. apply Qle_bool_iff in Hge.
    pose proof (Hbound q x Hq Hx) as Hxm.
    apply (Qlt_irrefl 4). apply Qle_lt_trans with m; [|exact Hlt].
    apply Qle_trans with x; assumption.
Qed.

Lemma sidebar_statistics_witness :
  exists s,
    calculateStats sample_now [tehran; tokyo; shiraz_weak] (mkStats 0 0 0 (Finite 0)) = Normal s /\
    total s = 3%nat /\
    exists m, maxMagnitude s = Finite m /\ ~ (m < 4)%Q.
Proof.
  destruct (sidebar_statistics sample_now [tehran; tokyo; shiraz_weak]
              [mkProperties (JNum (45 # 10)) "12 km N of Tehran, Iran" 1762100000000;
               mkProperties (JNum 5) "30 km E of Tokyo, Japan" 1762100100000;
               mkProperties (JNum (15 # 10)) "8 km S of Shiraz, Iran" 1762100200000]
              (mkStats 0 0 0 (Finite 0))) as [_ H].
  destruct (H ltac:(discriminate) eq_refl) as (s & Hs & Ht & _ & _ & Hmax).
  exists s. split; [exact Hs|]. split; [exact Ht|].
  destruct Hmax as (m & Hm & _ & Hbound & _).
  { repeat constructor; eexists; reflexivity. }
  exists m. split; [exact Hm|].
  intros Hlt. apply (Qlt_irrefl 4). apply Qle_lt_trans with m; [|exact Hlt].
  apply Qle_trans with 5%Q; [unfold Qle; cbn; lia|].
  apply (Hbound (mkProperties (JNum 5) "30 km E of Tokyo, Japan" 1762100100000) 5%Q);
    [right; left; reflexivity|reflexivity].
Defined.


(** ** The order of the list *)

Lemma insert_by_time_perm x l : insert_by_time x l ≡ₚ x :: l.
Proof.
  induction l as [|b l IH]; cbn; [reflexivity|].
  destruct (time_of b - time_of x <=? 0); [reflexivity|].
  rewrite IH. apply Permutation_swap.
Qed.

Lemma sort_by_time_perm l : sort_by_time l ≡ₚ l.
Proof.
  induction l as [|x l IH]; cbn; [reflexivity|].
  rewrite insert_by_time_perm. rewrite IH. reflexivity.
Qed.

Lemma insert_by_time_sorted x l :
  StronglySorted (fun a b => time_of b <= time_of a) l ->
  StronglySorted (fun a b => time_of b <= time_of a) (insert_by_time x l).
Proof.
  induction 1 as [|b l Hs IH Hb]; cbn.
  - repeat constructor.
  - destruct (Z.leb_spec (time_of b - time_of x) 0) as [Hle|Hgt].
    + constructor; [constructor; assumption|].
      constructor; [lia|]. eapply Forall_impl; [exact Hb|]. cbn. intros c Hc. lia.
    + constructor; [exact IH|].
      rewrite insert_by_time_perm. constructor; [lia|exact Hb].
Qed.

Lemma sort_by_time_sorted l :
  StronglySorted (fun a b => time_of b <= time_of a) (sort_by_time l).
Proof.
  induction l as [|x l IH]; cbn; [constructor|]. apply insert_by_time_sorted, IH.
Qed.

Lemma insert_by_time_stable t x l :
  List.filter (fun f => time_of f =? t) (insert_by_time x l) =
  List.filter (fun f => time_of f =? t) (x :: l).
Proof.
  induction l as [|b l IH]; [reflexivity|]. cbn [insert_by_time].
  destruct (Z.leb_spec (time_of b - time_of x) 0) as [Hle|Hgt]; [reflexivity|].
  cbn [List.filter] in *. rewrite IH.
  destruct (Z.eqb_spec (time_of x) t) as [Hx|Hx]; [|reflexivity].
  destruct (Z.eqb_spec (time_of b) t) as [Hb|Hb]; [lia|reflexivity].
Qed.

Lemma sort_by_time_stable t l :
  List.filter (fun f => time_of f =? t) (sort_by_time l) =
  List.filter (fun f => time_of f =? t) l.
Proof.
  induction l as [|x l IH]; [reflexivity|].
  cbn [sort_by_time foldr]. rewrite insert_by_time_stable.
  cbn [List.filter]. fold (sort_by_time l). rewrite IH. reflexivity.
Qed.

(** The list is shown most recent first: for records that all have their
    [properties] the sorted list holds the same records, every record is at
    least as recent as those after it, and records with the same time keep
    the order of the feed.  Without [properties] on some record the sort
    throws as soon as there are two records. *)
Theorem list_is_most_recent_first l :
  (forall ps, all_properties l = Some ps ->
   exists sorted,
     sortedEarthquakes l = Normal sorted /\
     sorted ≡ₚ l /\
     StronglySorted (fun a b => time_of b <= time_of a) sorted /\
     forall t, List.filter (fun f => time_of f =? t) sorted =
               List.filter (fun f => time_of f =? t) l) /\
  (all_properties l = None -> (2 <= length l)%nat ->
   exists e, sortedEarthquakes l = Throw e).
Proof.
  split.
  - intros ps Hps. exists (sort_by_time l). split.
    + unfold sortedEarthquakes. rewrite Hps. destruct l as [|a [|b l]]; reflexivity.
    + split; [apply sort_by_time_perm|].
      split; [apply sort_by_time_sorted|]. intros t. apply sort_by_time_stable.
  - intros Hnone Hlen. unfold sortedEarthquakes. rewrite Hnone.
    destruct l as [|a [|b l]]; cbn in Hlen; try lia. eauto.
Qed.

Lemma list_is_most_recent_first_witness :
  exists sorted,
    sortedEarthquakes [tehran; tokyo; shiraz_weak] = Normal sorted /\
    sorted ≡ₚ [tehran; tokyo; shiraz_weak] /\
    StronglySorted (fun a b => time_of b <= time_of a) sorted.
Proof.
  destruct (list_is_most_recent_first [tehran; tokyo; shiraz_weak]) as [H _].
  destruct (H _ eq_refl) as (sorted & Hs & Hp & Hsorted & _).
  exists sorted. auto.
Defined.


(** ** A body without features *)

(** A historical response whose body has no [features] passes through
    [fetchEarthquakes] and is stored like any other; [loadEarthquakeData]
    then rejects it.  For the next 24 hours every load of the same filters
    reads the stored body back and fails in the same way, without a
    request. *)
Theorem featureless_history_is_cached w f st r md :
  isHistorical f = true ->
  cache_miss w (loadParams f) st ->
  fetch w (buildUrl (now w) (loadParams f)) = Responds r ->
  Response.ok r = true ->
  Response.json r = Normal (mkData md None) ->
  quota_exceeded w = false ->
  exists st',
    loadEarthquakeData_outcome w f st =
      Some (Failed "Invalid data received from the server", st') /\
    localStorage st' !! cacheKey (loadParams f) = Some (mkItem (mkData md None) (now w)) /\
    forall w2, now w2 - now w < 24 * 60 * 60 * 1000 ->
      exists st2 lines,
        loadEarthquakeData_outcome w2 f st' =
          Some (Failed "Invalid data received from the server", st2) /\
        console st2 = (console st' ++ lines)%list /\
        requests lines = 0%nat /\
        localStorage st2 = localStorage st'.
Proof.
  intros Hhist Hmiss Hfetch Hok Hjson Hq.
  assert (Hcustom : timeRange (loadParams f) = "custom") by (cbn; rewrite Hhist; reflexivity).
  assert (Hreq : request_outcome w (loadParams f) = Normal (mkData md None)).
  { unfold request_outcome, try_block. rewrite Hfetch, Hok, Hjson.
    unfold normalize. rewrite Hcustom. reflexivity. }
  assert (Hdur : cacheDuration (cacheCategory (loadParams f)) = Some (24 * 60 * 60 * 1000))
    by (unfold cacheCategory; rewrite Hcustom; reflexivity).
  pose proof (attempt_succeeded w (loadParams f) st _ Hmiss Hreq) as Ha.
  set (st1 := cacheData _ _ _ _ _ _) in Ha.
  assert (Hitem : localStorage st1 !! cacheKey (loadParams f) =
                  Some (mkItem (mkData md None) (now w))).
  { unfold st1, cacheData. rewrite Hq. cbn [localStorage]. apply lookup_insert_eq. }
  eexists. split.
  { unfold loadEarthquakeData_outcome. rewrite fetchEarthquakes_unfold, Ha. reflexivity. }
  cbn [localStorage console_write]. split; [exact Hitem|].
  intros w2 Hage.
  destruct (getCachedData_valid_iff (now w2) (localStorage st1) _ _ _ _ Hitem Hdur)
    as [Hvalid _].
  specialize (Hvalid Hage). cbn [data] in Hvalid.
  eexists _, [_]. split.
  { unfold loadEarthquakeData_outcome. rewrite fetchEarthquakes_unfold. unfold attempt.
    cbn [localStorage console_write]. rewrite Hvalid. reflexivity. }
  split; [reflexivity|]. split; reflexivity.
Qed.

Lemma featureless_history_is_cached_witness :
  exists st',
    loadEarthquakeData_outcome world_no_features sample_filters empty_state =
      Some (Failed "Invalid data received from the server", st') /\
    exists st2 lines,
      loadEarthquakeData_outcome
        (mkWorld (sample_now + 23 * 60 * 60 * 1000) (fetch world_feed_up) false)
        sample_filters st' =
        Some (Failed "Invalid data received from the server", st2) /\
      console st2 = (console st' ++ lines)%list /\
      requests lines = 0%nat.
Proof.
  assert (Hmiss : cache_miss world_no_features (loadParams sample_filters) empty_state)
    by (vm_compute; reflexivity).
  destruct (featureless_history_is_cached world_no_features sample_filters empty_state
              (ok_response (mkData (Some (sample_metadata 0)) None))
              (Some (sample_metadata 0)) eq_refl Hmiss eq_refl eq_refl eq_refl eq_refl)
    as (st' & Hload & _ & Hagain).
  exists st'. split; [exact Hload|].
  destruct (Hagain (mkWorld (sample_now + 23 * 60 * 60 * 1000) (fetch world_feed_up) false))
    as (st2 & lines & H1 & H2 & H3 & _).
  - cbn [now]. unfold world_no_features. cbn [now]. lia.
  - exists st2, lines. auto.
Defined.

(** On a real-time feed the same body is an error of the call itself: the
    filter cannot run, the caller gets the message of a failed fetch, and
    nothing is stored. *)
Theorem featureless_feed_is_an_error w f st r md :
  isHistorical f = false ->
  filters_timeRange f <> "custom" ->
  cache_miss w (loadParams f) st ->
  fetch w (buildUrl (now w) (loadParams f)) = Responds r ->
  Response.ok r = true ->
  Response.json r = Normal (mkData md None) ->
  exists st',
    loadEarthquakeData_outcome w f st =
      Some (Failed "Failed to fetch earthquake data: Cannot read properties of undefined (reading 'filter')", st') /\
    localStorage st' = localStorage st.
Proof.
  intros Hrt Hne Hmiss Hfetch Hok Hjson.
  assert (Htr : timeRange (loadParams f) = filters_timeRange f) by (cbn; rewrite Hrt; reflexivity).
  assert (Hneq : String.eqb (timeRange (loadParams f)) "custom" = false)
    by (rewrite Htr; apply String.eqb_neq; exact Hne).
  assert (Hreq : request_outcome w (loadParams f) =
                 Throw (TypeError "Cannot read properties of undefined (reading 'filter')")).
  { unfold request_outcome, try_block. rewrite Hfetch, Hok, Hjson.
    unfold normalize. rewrite Hneq. reflexivity. }
  destruct (attempt_failed w (loadParams f) st _ Hmiss Hreq) as (st1 & Hs1 & Ea).
  assert (Hc : catch_block (timeRange (loadParams f))
                 (TypeError "Cannot read properties of undefined (reading 'filter')") =
               (None, Rethrow (Error "Failed to fetch earthquake data: Cannot read properties of undefined (reading 'filter')"))).
  { unfold catch_block. rewrite Hneq. reflexivity. }
  rewrite Hc in Ea.
  eexists. split.
  { unfold loadEarthquakeData_outcome. rewrite fetchEarthquakes_unfold, Ea. reflexivity. }
  cbn [localStorage console_write]. exact Hs1.
Qed.

Lemma featureless_feed_is_an_error_witness :
  exists st',
    loadEarthquakeData_outcome world_no_features (realtime_filters (mkDate 2025 8 1)) empty_state =
      Some (Failed "Failed to fetch earthquake data: Cannot read properties of undefined (reading 'filter')", st') /\
    localStorage st' = localStorage empty_state.
Proof.
  assert (Hmiss : cache_miss world_no_features (loadParams (realtime_filters (mkDate 2025 8 1)))
                    empty_state) by (vm_compute; reflexivity).
  apply (featureless_feed_is_an_error world_no_features (realtime_filters (mkDate 2025 8 1))
           empty_state (ok_response (mkData (Some (sample_metadata 0)) None))
           (Some (sample_metadata 0)) eq_refl ltac:(discriminate) Hmiss eq_refl eq_refl eq_refl).
Defined.

(** ** Writing and reading the store *)

(** What is written under a key is read back, under one of the four
    categories or under a name that is no property at all (which counts as
    [day]), exactly while its age is below the duration of the category: 5
    minutes, 15 minutes, one hour, 24 hours.  The age test is strict.  A
    second write under the key replaces the first, and a write leaves every
    other key as it was. *)
Theorem cache_round_trip T key d category st now' :
  ~ In category Object_prototype_keys ->
  let duration :=
    if String.eqb category "hour" then 5 * 60 * 1000
    else if String.eqb category "week" then 60 * 60 * 1000
    else if String.eqb category "historical" then 24 * 60 * 60 * 1000
    else 15 * 60 * 1000 in
  let st' := cacheData T false key d category st in
  (now' - T < duration ->
   getCachedData now' (localStorage st') key category = Some d) /\
  (duration <= now' - T ->
   getCachedData now' (localStorage st') key category = None) /\
  (forall T2 d2,
     localStorage (cacheData T2 false key d2 category st') !! key = Some (mkItem d2 T2)) /\
  (forall key2 category2, key2 <> key ->
     getCachedData now' (localStorage st') key2 category2 =
     getCachedData now' (localStorage st) key2 category2).
Proof.
  intros Hout duration st'.
  assert (Hitem : localStorage st' !! key = Some (mkItem d T)) by apply lookup_insert_eq.
  assert (Hdur : cacheDuration category = Some duration).
  { subst duration.
    destruct (in_dec string_dec category ["hour"; "day"; "week"; "historical"])
      as [Hin|Hnot].
    - destruct Hin as [<-|[<-|[<-|[<-|[]]]]]; reflexivity.
    - rewrite (cacheDuration_default category Hnot Hout).
      assert (Hh : String.eqb category "hour" = false)
        by (apply String.eqb_neq; intros ->; apply Hnot; cbn; auto).
      assert (Hw : String.eqb category "week" = false)
        by (apply String.eqb_neq; intros ->; apply Hnot; cbn; auto).
      assert (Hi : String.eqb category "historical" = false)
        by (apply String.eqb_neq; intros ->; apply Hnot; cbn; auto).
      rewrite Hh, Hw, Hi. reflexivity. }
  destruct (getCachedData_valid_iff now' (localStorage st') key category _ duration Hitem Hdur)
    as [Hvalid Hexpired].
  split; [exact Hvalid|]. split; [exact Hexpired|]. split.
  - intros T2 d2. apply lookup_insert_eq.
  - intros key2 category2 Hne. unfold getCachedData, st', cacheData. cbn [localStorage].
    rewrite lookup_insert_ne by congruence. reflexivity.
Qed.

Lemma cache_round_trip_witness :
  getCachedData (sample_now + 59 * 60 * 1000)
    (localStorage (cacheData sample_now false "k" (mkData None None) "week" empty_state))
    "k" "week" = Some (mkData None None) /\
  getCachedData (sample_now + 60 * 60 * 1000)
    (localStorage (cacheData sample_now false "k" (mkData None None) "week" empty_state))
    "k" "week" = None.
Proof.
  destruct (cache_round_trip sample_now "k" (mkData None None) "week" empty_state
              (sample_now + 59 * 60 * 1000)) as (Hvalid & _).
  { intros H. repeat (destruct H as [H|H]; [discriminate|]). exact H. }
  destruct (cache_round_trip sample_now "k" (mkData None None) "week" empty_state
              (sample_now + 60 * 60 * 1000)) as (_ & Hexpired & _).
  { intros H. repeat (destruct H as [H|H]; [discriminate|]). exact H. }
  split; [apply Hvalid|apply Hexpired]; cbn zeta; vm_compute; congruence.
Defined.

(** ** Keys of different queries *)

Lemma digit_not_underscore k : 0 <= k <= 9 -> Ascii.eqb (digit k) "_" = false.
Proof.
  intros Hk.
  destruct (digit_cases k Hk) as [->|[->|[->|[->|[->|[->|[->|[->|[->| ->]]]]]]]]];
    reflexivity.
Qed.

Lemma has_underscore_append a b :
  has_underscore (a +:+ b) = has_underscore a || has_underscore b.
Proof.
  induction a as [|c a IH]; [reflexivity|].
  rewrite append_String. cbn [has_underscore]. rewrite IH. apply orb_assoc.
Qed.

Lemma pad2_plain n : has_underscore (pad2 n) = false.
Proof.
  unfold pad2. cbn [has_underscore].
  rewrite !digit_not_underscore by (Z.div_mod_to_equations; lia). reflexivity.
Qed.

Lemma formatDate_plain d : has_underscore (formatDate d) = false.
Proof.
  unfold formatDate, pad4. rewrite !has_underscore_append, !pad2_plain.
  cbn [has_underscore].
  rewrite !digit_not_underscore by (Z.div_mod_to_equations; lia).
  rewrite pad2_plain. reflexivity.
Qed.

Lemma string_compare_refl s : String.compare s s = Eq.
Proof.
  induction s as [|c s IH]; [reflexivity|]. cbn.
  replace (Ascii.compare c c) with Eq; [exact IH|].
  symmetry. unfold Ascii.compare. apply N.compare_refl.
Qed.

Lemma formatDate_inj a b :
  valid_date a -> valid_date b -> formatDate a = formatDate b -> a = b.
Proof.
  intros Ha Hb Heq.
  pose proof (compare_formatDate a b Ha Hb) as Hc.
  rewrite Heq, string_compare_refl in Hc. unfold compare_dates in Hc.
  destruct (Z.compare_spec (year a) (year b)) as [Hy|Hy|Hy]; try discriminate.
  destruct (Z.compare_spec (month a) (month b)) as [Hm|Hm|Hm]; try discriminate.
  destruct (Z.compare_spec (day a) (day b)) as [Hd|Hd|Hd]; try discriminate.
  destruct a, b. cbn in *. congruence.
Qed.

Lemma DateField_or_empty_plain d : has_underscore (DateField_or_empty d) = false.
Proof. destruct d; cbn; try reflexivity. apply formatDate_plain. Qed.

Lemma DateField_or_empty_inj a b :
  (forall c, a = DDate c -> valid_date c) ->
  (forall c, b = DDate c -> valid_date c) ->
  DateField_or_empty a = DateField_or_empty b -> same_date a b.
Proof.
  intros Ha Hb. destruct a as [| |x], b as [| |y]; cbn; try exact (fun _ => I);
    try (unfold formatDate, pad4; rewrite !append_String; discriminate).
  intros H. exact (formatDate_inj x y (Ha x eq_refl) (Hb y eq_refl) H).
Qed.

(** Two well-formed queries that differ get different keys: the key gives
    back the time range, the minimum magnitude and both dates (an absent
    date and a cleared one count as the same).  The cache never answers one
    query with the data of another. *)
Theorem cache_key_injective p1 p2 :
  In (timeRange p1) ["hour"; "day"; "week"; "custom"] ->
  In (timeRange p2) ["hour"; "day"; "week"; "custom"] ->
  slider_position (minMagnitude p1) -> slider_position (minMagnitude p2) ->
  (forall c, startDate p1 = DDate c \/ endDate p1 = DDate c -> valid_date c) ->
  (forall c, startDate p2 = DDate c \/ endDate p2 = DDate c -> valid_date c) ->
  cacheKey p1 = cacheKey p2 ->
  timeRange p1 = timeRange p2 /\
  (minMagnitude p1 == minMagnitude p2)%Q /\
  same_date (startDate p1) (startDate p2) /\
  same_date (endDate p1) (endDate p2).
Proof.
  intros Ht1 Ht2 Hm1 Hm2 Hd1 Hd2 Hkey.
  assert (Hp1 : has_underscore (timeRange p1) = false)
    by (destruct Ht1 as [<-|[<-|[<-|[<-|[]]]]]; reflexivity).
  assert (Hp2 : has_underscore (timeRange p2) = false)
    by (destruct Ht2 as [<-|[<-|[<-|[<-|[]]]]]; reflexivity).
  unfold cacheKey in Hkey. apply append_inv_head in Hkey.
  pose proof (split_at_underscore _ _ _ _ Hp1 Hp2 Hkey) as Htr.
  split; [exact Htr|].
  rewrite Htr in Hkey. do 2 apply append_inv_head in Hkey.
  pose proof (split_at_underscore _ _ _ _
                (slider_position_text_plain _ Hm1) (slider_position_text_plain _ Hm2) Hkey)
    as Hmag.
  split; [exact (slider_position_text_inj _ _ Hm1 Hm2 Hmag)|].
  rewrite Hmag in Hkey. do 2 apply append_inv_head in Hkey.
  pose proof (split_at_underscore _ _ _ _
                (DateField_or_empty_plain _) (DateField_or_empty_plain _) Hkey) as Hs.
  split; [apply DateField_or_empty_inj; auto|].
  rewrite Hs in Hkey. do 2 apply append_inv_head in Hkey.
  change "_iran" with ("_" +:+ "iran") in Hkey.
  pose proof (split_at_underscore _ _ _ _
                (DateField_or_empty_plain _) (DateField_or_empty_plain _) Hkey) as He.
  apply DateField_or_empty_inj; auto.
Qed.

Lemma cache_key_injective_witness :
  timeRange historical_query =
    timeRange (mkParams "custom" (20 # 10) (DDate (mkDate 2025 8 1)) (DDate (mkDate 2025 10 31))) /\
  (minMagnitude historical_query == 20 # 10)%Q.
Proof.
  assert (Hv : forall c,
             DDate (mkDate 2025 8 1) = DDate c \/ DDate (mkDate 2025 10 31) = DDate c ->
             valid_date c).
  { intros c [[= <-]|[= <-]]; unfold valid_date; cbn [year month day];
      vm_compute (days_in_month _ _); lia. }
  destruct (cache_key_injective historical_query
              (mkParams "custom" (20 # 10) (DDate (mkDate 2025 8 1)) (DDate (mkDate 2025 10 31))))
    as (Htr & Hm & _).
  - cbn. auto.
  - cbn. auto.
  - exists 20. split; [lia|reflexivity].
  - exists 20. split; [lia|reflexivity].
  - exact Hv.
  - exact Hv.
  - vm_compute. reflexivity.
  - split; [exact Htr|exact Hm].
Defined.

(** ** A real-time load from end to end *)

Lemma array_filter_readable minMagnitude fs :
  Forall readable fs ->
  exists kept, array_filter (filter_callback minMagnitude) fs = Normal kept.
Proof.
  induction 1 as [|f fs Hf _ [kept IH]]; cbn; [eauto|].
  destruct (filter_callback_readable minMagnitude f Hf) as [keep ->].
  rewrite IH. eauto.
Qed.

(** A real-time query that misses the cache makes exactly one request, to
    the feed named after its time range, whatever the magnitude and the
    dates.  When the feed answers with records that can all be read, the
    call returns the records inside the box that are strong enough, with
    their count, prints nothing but the request line, and stores what it
    returns under the key of the query. *)
Theorem realtime_load w p st r md fs :
  timeRange p <> "custom" ->
  cache_miss w p st ->
  fetch w ("https://earthquake.usgs.gov/earthquakes/feed/v1.0/summary/all_" +:+
           timeRange p +:+ ".geojson") = Responds r ->
  Response.ok r = true ->
  Response.json r = Normal (mkData (Some md) (Some fs)) ->
  Forall readable fs ->
  exists kept st',
    let result := mkData (Some (set_count md (Z.of_nat (length kept)))) (Some kept) in
    fetchEarthquakes w p st = Some (Normal result, st') /\
    sublist kept fs /\
    (forall f, In f kept -> inside_box f /\ strong_enough (minMagnitude p) f) /\
    (forall f, well_formed f ->
       (In f kept <-> In f fs /\ within_box_and_magnitude (minMagnitude p) f)) /\
    st' = cacheData (now w) (quota_exceeded w) (cacheKey p) result (timeRange p)
            (console_write
               (request_line ("https://earthquake.usgs.gov/earthquakes/feed/v1.0/summary/all_" +:+
                              timeRange p +:+ ".geojson")) st).
Proof.
  intros Hrt Hmiss Hfetch Hok Hjson Hread.
  assert (Hneq : String.eqb (timeRange p) "custom" = false) by (apply String.eqb_neq; exact Hrt).
  assert (Hurl : buildUrl (now w) p =
                 "https://earthquake.usgs.gov/earthquakes/feed/v1.0/summary/all_" +:+
                 timeRange p +:+ ".geojson")
    by (unfold buildUrl; rewrite Hneq; reflexivity).
  destruct (array_filter_readable (minMagnitude p) fs Hread) as [kept Hkept].
  destruct (array_filter_kept _ _ _ Hkept) as [Hsub Hall].
  exists kept. eexists. cbn zeta.
  assert (Hreq : request_outcome w p =
                 Normal (mkData (Some (set_count md (Z.of_nat (length kept)))) (Some kept))).
  { unfold request_outcome, try_block. rewrite Hurl, Hfetch, Hok, Hjson.
    unfold normalize. rewrite Hneq. cbn [negb features metadata]. rewrite Hkept. reflexivity. }
  rewrite fetchEarthquakes_unfold, (attempt_succeeded w p st _ Hmiss Hreq).
  split; [reflexivity|]. split; [exact Hsub|].
  split; [intros f Hin; apply filter_callback_true, Hall, Hin|].
  split.
  - intros f Hwf.
    assert (Hfilter : array_filter (filter_callback (minMagnitude p)) fs =
                      Normal (List.filter
                                (fun f => match filter_callback (minMagnitude p) f with
                                          | Normal b => b
                                          | Throw _ => false
                                          end) fs)).
    { apply array_filter_total. eapply Forall_impl; [exact Hread|]. intros g Hg.
      destruct (filter_callback_readable (minMagnitude p) g Hg) as [b ->]. reflexivity. }
    rewrite Hkept in Hfilter. injection Hfilter as ->.
    rewrite filter_In, (filter_callback_well_formed _ _ Hwf), within_box_and_magnitudeb_spec.
    tauto.
  - unfold cacheCategory. rewrite Hneq, Hurl. reflexivity.
Qed.

Lemma realtime_load_witness :
  exists kept st',
    fetchEarthquakes world_feed_up day_query empty_state =
      Some (Normal (mkData (Some (set_count (sample_metadata 3) (Z.of_nat (length kept))))
                      (Some kept)), st') /\
    sublist kept [tehran; tokyo; shiraz_weak] /\
    (forall f, In f kept -> inside_box f /\ strong_enough 2 f).
Proof.
  assert (Hmiss : cache_miss world_feed_up day_query empty_state) by (vm_compute; reflexivity).
  assert (Hrt : timeRange day_query <> "custom") by discriminate.
  assert (Hread : Forall readable [tehran; tokyo; shiraz_weak])
    by (repeat constructor; eexists; reflexivity).
  destruct (realtime_load world_feed_up day_query empty_state
              (ok_response (mkData (Some (sample_metadata 3)) (Some [tehran; tokyo; shiraz_weak])))
              (sample_metadata 3) [tehran; tokyo; shiraz_weak]
              Hrt Hmiss eq_refl eq_refl eq_refl Hread)
    as (kept & st' & Hcall & Hsub & Hbox & _).
  exists kept, st'. auto.
Defined.

(** ** Where returned data comes from *)

(** Data is only ever returned from the cache or from the body of a
    response: a call that gets neither fails, and never hands out a
    placeholder collection in its place. *)
Theorem returned_data_provenance w p st d st' :
  fetchEarthquakes w p st = Some (Normal d, st') ->
  (exists q, (q = p \/ q = fallbackParams p) /\
     getCachedData (now w) (localStorage st) (cacheKey q) (cacheCategory q) = Some d) \/
  (exists q r body, (q = p \/ q = fallbackParams p) /\
     fetch w (buildUrl (now w) q) = Responds r /\
     Response.ok r = true /\
     Response.json r = Normal body /\
     normalize (timeRange q) (minMagnitude q) body = Normal d).
Proof.
  assert (Hone : forall q s s',
             attempt w q s = Done (Normal d) s' ->
             getCachedData (now w) (localStorage s) (cacheKey q) (cacheCategory q) = Some d \/
             exists r body,
               fetch w (buildUrl (now w) q) = Responds r /\ Response.ok r = true /\
               Response.json r = Normal body /\
               normalize (timeRange q) (minMagnitude q) body = Normal d).
  { intros q s s'. unfold attempt.
    destruct (getCachedData _ _ _ _) as [c|]; [intros [= -> _]; auto|].
    destruct (try_block w q (buildUrl (now w) q) s) as [[d0|e0] s1] eqn:Et.
    - intros [= -> _]. right. unfold try_block in Et.
      destruct (fetch w _) as [e|r]; [discriminate|].
      destruct (Response.ok r) eqn:Hok; [|discriminate]. cbn [negb] in Et.
      destruct (Response.json r) as [body|e] eqn:Hj; [|discriminate].
      destruct (normalize _ _ body) as [d'|e] eqn:Hn; [|discriminate].
      injection Et as -> _. eauto 6.
    - destruct (catch_block _ e0) as [[text|] [e'|]]; discriminate. }
  rewrite fetchEarthquakes_unfold.
  destruct (attempt w p st) as [r s|p' s] eqn:E1.
  - intros [= -> ->]. destruct (Hone p st st' E1) as [H|(r & body & H)].
    + left. exists p. auto.
    + right. exists p, r, body. tauto.
  - destruct (attempt_calls_itself _ _ _ _ _ E1) as (_ & -> & Hs).
    destruct (attempt w (fallbackParams p) s) as [r2 s2|] eqn:E2; [|discriminate].
    intros [= -> ->]. destruct (Hone _ s st' E2) as [H|(r & body & H)].
    + left. exists (fallbackParams p). rewrite <- Hs. auto.
    + right. exists (fallbackParams p), r, body. tauto.
Qed.

Lemma returned_data_provenance_witness :
  exists d st',
    fetchEarthquakes world_feed_up day_query empty_state = Some (Normal d, st') /\
    exists q r body,
      fetch world_feed_up (buildUrl (now world_feed_up) q) = Responds r /\
      Response.json r = Normal body /\
      normalize (timeRange q) (minMagnitude q) body = Normal d.
Proof.
  destruct (fetchEarthquakes world_feed_up day_query empty_state)
    as [[[d|e] st']|] eqn:E; try (vm_compute in E; discriminate).
  exists d, st'. split; [reflexivity|].
  destruct (returned_data_provenance _ _ _ _ _ E) as [(q & [->| ->] & Hc)|(q & r & body & _ & H1 & _ & H2 & H3)].
  - vm_compute in Hc. discriminate.
  - vm_compute in Hc. discriminate.
  - exists q, r, body. auto.
Defined.
